(** * ADLES vSphere interface: a shallow embedding and its properties

    The development embeds [adles/interfaces/vsphere_interface.py] (class
    [VsphereInterface], version 0.8.6): the instance resolver, the network
    resolver, the NIC reconciler and the two folder-tree walkers (Master
    generation and Deployment).

    Python objects are modelled as follows.
    - A parsed specification is a tree of [value]s; dictionaries keep their
      insertion order (association lists), and a list is a reference into a
      store, because the interface passes lists by reference and edits them.
    - A method of the interface is a computation in the monad [M]: it reads
      and writes a [State] and either returns or raises a Python exception.
    - The vSphere wrappers the class imports ([adles.vsphere], [adles.utils])
      are the fields of the class [Hypervisor]. *)

From Stdlib Require Import ZArith String Ascii List Lia DecimalString.
From stdpp Require Import base strings gmap list list_numbers.

Local Open Scope Z_scope.

(** ** Specification values *)

Abbreviation loc := positive.

(** What the YAML/JSON loader hands to the interface. *)
#[local] Unset Elimination Schemes.
Inductive value : Type :=
| VNone
| VBool (b : bool)
| VInt (n : Z)
| VStr (s : string)
| VList (l : loc)
| VDict (items : list (string * value)).
#[local] Set Elimination Schemes.

(** Exceptions the interface can end with.  [Unmodelled] marks the few
    places where an input leaves the validated specification format in a way
    whose Python behaviour is not reproduced here (for instance [int] of a
    string, [str] of a container): the computation stops there. *)
Inductive exn : Type :=
| AttributeError
| TypeError
| ValueError
| KeyError
| IndexError
| ThresholdException
| Unmodelled.

Inductive level : Type := DEBUG | INFO | WARNING | ERROR.

(** A log record keeps the format string and its arguments apart, as the
    [logging] module does until a handler renders them. *)
Inductive log_arg : Type :=
| LStr (s : string)
| LInt (n : Z)
| LVal (v : value).

Record log_entry : Type := Log { log_level : level; log_fmt : string; log_args : list log_arg }.

(** Kinds of object the instance thresholds are configured for. *)
Inductive object_kind : Type := KFolder | KService.

(** The string the source passes as [obj_type]. *)
Definition kind_name (t : object_kind) : string :=
  match t with KFolder => "folder" | KService => "service" end.

(** Names/prefixes *)
Definition master_prefix : string := "(MASTER) ".
Definition master_root_name : string := "MASTER-FOLDERS".

(** Values at which to warn or error when exceeded *)
Record threshold : Type := Threshold { warn : Z; error : Z }.

Definition thresholds (t : object_kind) : threshold :=
  match t with
  | KFolder => {| warn := 25; error := 50 |}
  | KService => {| warn := 50; error := 70 |}
  end.

(** ** The hypervisor driver

    The functions of [adles.vsphere.*] and [adles.utils] the interface calls.
    A managed object ([Obj]) is a folder, a virtual machine or a template;
    [Server] is the state of the vCenter inventory and of the host's
    networks. *)
Class Hypervisor : Type := {
  Server : Type;
  Obj : Type;
  Net : Type;
  Net_eq_dec :: EqDecision Net;
  (** [folder.name], [vm.name] *)
  name_of : Obj → string;
  (** [Vsphere.create_folder(folder_name, create_in)] *)
  create_folder : string → Obj → Server → Obj * Server;
  (** [folder_utils.traverse_path(folder, path)] *)
  traverse_path : Obj → string → Server → option Obj;
  (** [vm_utils.clone_vm(vm, folder, name, clone_spec)] *)
  clone_vm : Obj → Obj → string → Server → Server;
  (** [vm_utils.set_note(vm, note)] *)
  set_note : Obj → string → Server → Server;
  (** [vm_utils.create_snapshot(vm, name, description)] *)
  create_snapshot : Obj → string → string → Server → Server;
  (** [Vsphere.get_network(network_name)] *)
  get_network : string → Server → option Net;
  (** [network_utils.create_portgroup(name, host, promiscuous, vlan, vswitch_name)] *)
  create_portgroup : string → bool → Z → string → Server → Server;
  (** [host.configManager.networkSystem.RefreshNetworkSystem()] *)
  refresh_network_system : Server → Server;
  (** [vm.network] *)
  vm_network : Obj → Server → list Net;
  (** [vm_utils.has_tools(vm)] *)
  has_tools : Obj → Server → bool;
  (** [vm_utils.delete_nic(vm, nic_number)] *)
  delete_nic : Obj → Z → Server → Server;
  (** [vm_utils.add_nic(vm, network, model, summary)] *)
  add_nic : Obj → option Net → string → string → Server → Server;
  (** [vm_utils.edit_nic(vm, nic_id, port_group, summary)] *)
  edit_nic : Obj → Z → option Net → string → Server → Server;
  (** [vm_utils.get_nic_by_id(vm, nic_id)], reduced to what the interface
      reads of the result: [None] when there is no such NIC, otherwise its
      [backing.network]. *)
  get_nic_by_id : Obj → Z → Server → option (option Net);
  (** [utils.pad(value)] *)
  pad : Z → string
}.

(** Driver calls that change the hypervisor, as issued. *)
Inductive call `{Hypervisor} : Type :=
| CCreateFolder (name : string) (create_in : Obj)
| CCloneVm (vm folder : Obj) (name : string)
| CSetNote (vm : Obj) (note : string)
| CCreateSnapshot (vm : Obj) (name description : string)
| CCreatePortgroup (name : string) (promiscuous : bool) (vlan : Z) (vswitch_name : string)
| CRefreshNetworkSystem
| CDeleteNic (vm : Obj) (nic_number : Z)
| CAddNic (vm : Obj) (network : option Net) (model summary : string)
| CEditNic (vm : Obj) (nic_id : Z) (port_group : option Net) (summary : string).

Section Interface.
Context `{Hypervisor}.

(** ** Mutable state of a run *)
Record State : Type := mkState {
  (** the hypervisor *)
  st_server : Server;
  (** the list objects of the loaded specification *)
  st_heap : gmap loc (list string);
  (** [self.net_table] *)
  st_net_table : gmap string bool;
  (** the driver calls issued so far that change the hypervisor, oldest first *)
  st_calls : list call;
  (** the paths looked up with [traverse_path] so far, oldest first *)
  st_lookups : list (Obj * string);
  (** the log records emitted so far, oldest first *)
  st_log : list log_entry
}.

Definition set_server (v : Server) (s : State) : State :=
  mkState v (st_heap s) (st_net_table s) (st_calls s) (st_lookups s) (st_log s).
Definition set_heap (h : gmap loc (list string)) (s : State) : State :=
  mkState (st_server s) h (st_net_table s) (st_calls s) (st_lookups s) (st_log s).
Definition set_net_table (t : gmap string bool) (s : State) : State :=
  mkState (st_server s) (st_heap s) t (st_calls s) (st_lookups s) (st_log s).
Definition add_call (c : call) (s : State) : State :=
  mkState (st_server s) (st_heap s) (st_net_table s) (st_calls s ++ [c]) (st_lookups s) (st_log s).
Definition add_lookup (q : Obj * string) (s : State) : State :=
  mkState (st_server s) (st_heap s) (st_net_table s) (st_calls s) (st_lookups s ++ [q]) (st_log s).
Definition add_log (e : log_entry) (s : State) : State :=
  mkState (st_server s) (st_heap s) (st_net_table s) (st_calls s) (st_lookups s) (st_log s ++ [e]).

(** ** The monad of interface methods *)
Inductive outcome (A : Type) : Type :=
| Ok (a : A) (s : State)
| Raise (e : exn) (s : State).
Global Arguments Ok {A} a s.
Global Arguments Raise {A} e s.

Definition M (A : Type) : Type := State → outcome A.

Definition ret {A} (a : A) : M A := λ s, Ok a s.
Definition bind {A B} (m : M A) (k : A → M B) : M B :=
  λ s, match m s with Ok a s' => k a s' | Raise e s' => Raise e s' end.
Definition raise {A} (e : exn) : M A := λ s, Raise e s.
Definition gets {A} (f : State → A) : M A := λ s, Ok (f s) s.
Definition modify (f : State → State) : M unit := λ s, Ok tt (f s).

Definition final_state {A} (o : outcome A) : State :=
  match o with Ok _ s => s | Raise _ s => s end.

Definition raised {A} (o : outcome A) : option exn :=
  match o with Ok _ _ => None | Raise e _ => Some e end.

Global Instance M_ret : MRet M := @ret.
Global Instance M_bind : MBind M := λ A B k m, bind m k.

(** ** Logging *)
Definition log (l : level) (fmt : string) (args : list log_arg) : M unit :=
  modify (add_log (Log l fmt args)).

(** ** Python primitives on specification values *)

(** [str(n)] for an integer *)
Definition str_int (n : Z) : string := NilZero.string_of_int (Z.to_int n).

(** [key in v] *)
Definition py_contains (key : string) (v : value) : M bool :=
  match v with
  | VDict items => mret (bool_decide (key ∈ items.*1))
  | VList l =>
      h ← gets st_heap;
      match h !! l with
      | Some xs => mret (bool_decide (key ∈ xs))
      | None => raise Unmodelled
      end
  | VStr s => mret (match String.index 0 key s with Some _ => true | None => false end)
  | _ => raise TypeError
  end.

(** [d.get(key)] on an insertion-ordered dictionary *)
Definition dict_get {A} (key : string) (items : list (string * A)) : option A :=
  snd <$> List.find (λ kv, bool_decide (kv.1 = key)) items.

(** [v[key]] for a string [key] *)
Definition py_getitem (v : value) (key : string) : M value :=
  match v with
  | VDict items =>
      match dict_get key items with
      | Some x => mret x
      | None => raise KeyError
      end
  | _ => raise TypeError
  end.

(** [v.items()] *)
Definition py_items (v : value) : M (list (string * value)) :=
  match v with
  | VDict items => mret items
  | _ => raise AttributeError
  end.

(** [bool(v)] *)
Definition py_bool (v : value) : M bool :=
  match v with
  | VNone => mret false
  | VBool b => mret b
  | VInt n => mret (negb (n =? 0))
  | VStr s => mret (negb (String.eqb s ""))
  | VList l =>
      h ← gets st_heap;
      match h !! l with
      | Some xs => mret (negb (bool_decide (xs = [])))
      | None => raise Unmodelled
      end
  | VDict items => mret (negb (bool_decide (items.*1 = [])))
  end.

(** [int(v)] *)
Definition py_int (v : value) : M Z :=
  match v with
  | VInt n => mret n
  | VBool b => mret (if b then 1 else 0)
  | VStr _ => raise Unmodelled
  | _ => raise TypeError
  end.

(** [str(v)] *)
Definition py_str (v : value) : M string :=
  match v with
  | VStr s => mret s
  | VInt n => mret (str_int n)
  | VBool b => mret (if b then "True" else "False")
  | VNone => mret "None"
  | _ => raise Unmodelled
  end.

(** [for x in xs: body(x)] *)
Definition for_each {A} (body : A → M unit) : list A → M unit :=
  fix go (xs : list A) : M unit :=
    match xs with
    | [] => mret tt
    | x :: xs' => body x;; go xs'
    end.

(** [range(n)] *)
Definition range (n : Z) : list Z := seqZ 0 n.

(** ** The interface object

    The attributes [__init__] sets and the walks only read.  The catalogs of
    services and networks are typed after the specification format:
    a service definition is a dictionary that may hold a [template] and a
    [note], a network configuration one that may hold a [vlan] and a
    [vswitch]. *)
Record service_def : Type := ServiceDef { sd_template : option string; sd_note : option string }.
Record net_config : Type := NetConfig { nc_vlan : option Z; nc_vswitch : option string }.

(** [adles.group.Group], of which the interface reads nothing. *)
Record Group : Type := mkGroup { group_name : string }.

(** An entry of [self.groups]: a [Group], or the list of [Group]s of a
    template group. *)
Inductive group_entry : Type :=
| StandardGroup (g : Group)
| TemplateGroup (gs : list Group).

Record VsphereInterface : Type := {
  services : list (string * service_def);
  networks : list (string * list (string * net_config));
  folders : value;
  groups : list (string * group_entry);
  host_name : string;
  vswitch_name : string;
  root_folder : Obj;
  master_folder : Obj;
  template_folder : Obj
}.

Context (self : VsphereInterface).

(** [_path] *)
Definition _path (path name : string) : string :=
  path +:+ "/" +:+ master_prefix +:+ name.

(** [_is_enabled] *)
Definition _is_enabled (spec : value) : M bool :=
  c ← py_contains "enabled" spec;
  if c : bool then v ← py_getitem spec "enabled"; py_bool v
  else mret true.

(** [_get_vlan]: the values the generator yields, in order.  A call of
    [_get_vlan()] makes a new generator object. *)
Definition _get_vlan : list Z := seqZ 2000 (4096 - 2000).

(** [next(g)] on a generator that has yielded nothing yet *)
Definition next (g : list Z) : M Z :=
  match g with
  | x :: _ => mret x
  | [] => raise Unmodelled
  end.

(** [self.__name__]: [VsphereInterface] defines no attribute [__name__], and
    an instance does not inherit the one of its class, so the lookup raises. *)
Definition self___name__ : M string := raise AttributeError.

(** [_instances_handler] *)
Definition _instances_handler (spec : value) (obj_name : string) (obj_type : object_kind)
  : M (Z * string) :=
  c ← py_contains "instances" spec;
  '(num, prefix) ←
    (if c : bool then
       inst ← py_getitem spec "instances";
       match inst with
       | VInt n => mret (n, "")
       | _ =>
           hp ← py_contains "prefix" inst;
           prefix ← (if hp : bool then p ← py_getitem inst "prefix"; py_str p else mret "");
           hn ← py_contains "number" inst;
           if hn : bool then
             n ← py_getitem inst "number";
             num ← py_int n;
             mret (num, prefix)
           else
             hs ← py_contains "size-of" inst;
             if hs : bool then mret (1, prefix)
             else
               log ERROR "Unknown instances specification: %s" [LVal inst];;
               mret (0, prefix)
       end
     else mret (1, ""));
  (if decide (num > error (thresholds obj_type)) then
     name ← self___name__;
     log ERROR "%d instances of %s '%s' is beyond the configured %s threshold of %d"
       [LInt num; LStr (kind_name obj_type); LStr obj_name; LStr name;
        LInt (error (thresholds obj_type))];;
     raise ThresholdException
   else if decide (num > warn (thresholds obj_type)) then
     name ← self___name__;
     log WARNING "%d instances of %s '%s' is beyond the configured %s threshold of %d"
       [LInt num; LStr (kind_name obj_type); LStr obj_name; LStr name;
        LInt (warn (thresholds obj_type))]
   else mret tt);;
  mret (num, prefix).

(** [_get_group] *)
Definition _get_group (group_name : value) : M (option Group) :=
  match group_name with
  | VList _ | VDict _ => raise TypeError
  | VStr name =>
      match dict_get name (groups self) with
      | Some (StandardGroup g) => mret (Some g)
      | Some (TemplateGroup gs) =>
          match gs with
          | g :: _ => mret (Some g)
          | [] => raise IndexError
          end
      | None =>
          log ERROR "Could not get group '%s' from VsphereInterface groups" [LVal group_name];;
          mret None
      end
  | _ =>
      log ERROR "Could not get group '%s' from VsphereInterface groups" [LVal group_name];;
      mret None
  end.

(** [_is_vsphere] *)
Definition _is_vsphere (service_name : value) : M bool :=
  match service_name with
  | VList _ | VDict _ => raise TypeError
  | VStr name =>
      match dict_get name (services self) with
      | None =>
          log ERROR "Could not find service %s in list of services" [LVal service_name];;
          mret false
      | Some config =>
          if sd_template config is Some _ then mret true else mret false
      end
  | _ =>
      log ERROR "Could not find service %s in list of services" [LVal service_name];;
      mret false
  end.

(** [_determine_net_type] *)
Definition _determine_net_type (network_label : string) : M string :=
  match List.find (λ kv, bool_decide (network_label ∈ kv.2.*1)) (networks self) with
  | Some (net_name, _) => mret net_name
  | None =>
      log ERROR "Could not find type for network '%s'" [LStr network_label];;
      mret ""
  end.

(** The driver calls, lifted to [M]. *)
Definition do_get_network (name : string) : M (option Net) :=
  gets (λ s, get_network name (st_server s)).

Definition do_create_portgroup (name : string) (promiscuous : bool) (vlan : Z)
    (vswitch : string) : M unit :=
  modify (λ s, add_call (CCreatePortgroup name promiscuous vlan vswitch)
                 (set_server (create_portgroup name promiscuous vlan vswitch (st_server s)) s)).

(** [_get_net] *)
Definition _get_net (name : string) (instance : Z) : M string :=
  net_type ← _determine_net_type name;
  if decide (net_type = "unique-networks") then mret name
  else if decide (net_type = "generic-networks") then
    if decide (instance = -1) then
      log ERROR "Invalid instance for _get_net: %d" [LInt instance];;
      raise ValueError
    else
      let net_name := name +:+ "-GENERIC-" +:+ pad instance in
      t ← gets st_net_table;
      (if t !! net_name is None then
         exists_ ← do_get_network net_name;
         (if exists_ is Some _ then
            log DEBUG "PortGroup '%s' already exists on host '%s'"
              [LStr net_name; LStr (host_name self)]
          else
            log DEBUG "Creating portgroup '%s' on host '%s'"
              [LStr net_name; LStr (host_name self)];;
            generic ← (if dict_get "generic-networks" (networks self) is Some g
                       then mret g else raise KeyError);
            config ← (if dict_get name generic is Some c then mret c else raise KeyError);
            let vsw := default (vswitch_name self) (nc_vswitch config) in
            vlan ← next _get_vlan;
            do_create_portgroup net_name false vlan vsw);;
         modify (λ s, set_net_table (<[net_name := true]> (st_net_table s)) s)
       else mret tt);;
      mret net_name
  else
    log ERROR "Invalid network type %s for network %s" [LStr net_type; LStr name];;
    raise TypeError.

Definition do_create_folder (name : string) (create_in : Obj) : M Obj :=
  λ s, let '(f, srv) := create_folder name create_in (st_server s) in
       Ok f (add_call (CCreateFolder name create_in) (set_server srv s)).

Definition do_traverse_path (root : Obj) (path : string) : M (option Obj) :=
  λ s, Ok (traverse_path root path (st_server s)) (add_lookup (root, path) s).

Definition do_clone_vm (vm folder_ : Obj) (name : string) : M unit :=
  modify (λ s, add_call (CCloneVm vm folder_ name)
                 (set_server (clone_vm vm folder_ name (st_server s)) s)).

Definition do_set_note (vm : Obj) (note : string) : M unit :=
  modify (λ s, add_call (CSetNote vm note) (set_server (set_note vm note (st_server s)) s)).

Definition do_create_snapshot (vm : Obj) (name description : string) : M unit :=
  modify (λ s, add_call (CCreateSnapshot vm name description)
                 (set_server (create_snapshot vm name description (st_server s)) s)).

Definition do_refresh_network_system : M unit :=
  modify (λ s, add_call CRefreshNetworkSystem
                 (set_server (refresh_network_system (st_server s)) s)).

Definition do_has_tools (vm : Obj) : M bool :=
  gets (λ s, has_tools vm (st_server s)).

Definition do_delete_nic (vm : Obj) (nic_number : Z) : M unit :=
  modify (λ s, add_call (CDeleteNic vm nic_number)
                 (set_server (delete_nic vm nic_number (st_server s)) s)).

Definition do_add_nic (vm : Obj) (network : option Net) (model summary : string) : M unit :=
  modify (λ s, add_call (CAddNic vm network model summary)
                 (set_server (add_nic vm network model summary (st_server s)) s)).

Definition do_edit_nic (vm : Obj) (nic_id : Z) (port_group : option Net) (summary : string)
  : M unit :=
  modify (λ s, add_call (CEditNic vm nic_id port_group summary)
                 (set_server (edit_nic vm nic_id port_group summary (st_server s)) s)).

Definition do_get_nic_by_id (vm : Obj) (nic_id : Z) : M (option (option Net)) :=
  gets (λ s, get_nic_by_id vm nic_id (st_server s)).

(** List objects of the specification: [list(l)], [len(l)] and [l.pop()]. *)
Definition py_list (l : loc) : M (list string) :=
  h ← gets st_heap;
  if h !! l is Some xs then mret xs else raise Unmodelled.

Definition py_len (l : loc) : M Z :=
  xs ← py_list l; mret (Z.of_nat (length xs)).

Definition py_pop (l : loc) : M string :=
  xs ← py_list l;
  match last xs with
  | Some x =>
      modify (λ s, set_heap (<[l := take (pred (length xs)) xs]> (st_heap s)) s);;
      mret x
  | None => raise IndexError
  end.

(** [_create_master_networks] *)
Definition _create_master_networks (net_type : string) (default_create : bool) : M unit :=
  do_refresh_network_system;;
  log INFO "Creating %s" [LStr net_type];;
  nets ← (if dict_get net_type (networks self) is Some n then mret n else raise KeyError);
  for_each (λ '(name, config),
      exists_ ← do_get_network name;
      if exists_ is Some _ then
        log DEBUG "PortGroup '%s' already exists on host '%s'"
          [LStr name; LStr (host_name self)]
      else
        log WARNING "PortGroup '%s' does not exist on host '%s'"
          [LStr name; LStr (host_name self)];;
        if default_create : bool then
          log DEBUG "Creating portgroup '%s' on host '%s'"
            [LStr name; LStr (host_name self)];;
          fresh ← next _get_vlan;
          do_create_portgroup name false (default fresh (nc_vlan config))
            (default (vswitch_name self) (nc_vswitch config))
        else mret tt) nets.

(** [_configure_nics], first part, one turn of the loop that creates the
    missing interfaces: add a NIC to the VM and pop its network from the
    list of networks. *)
Definition add_missing_nic (vm : Obj) (nets : loc) : M unit :=
  tools ← do_has_tools vm;
  let nic_model := if tools : bool then "vmxnet3" else "e1000" in
  net_name ← py_pop nets;
  network ← do_get_network net_name;
  do_add_nic vm network nic_model net_name.

(** [_configure_nics], first part: ensure the number of NICs on the VM
    matches the number of networks configured for the service.  [networks]
    is the list object the caller found in the specification, and
    [nets = networks] binds a second name to the same object.  The result is
    the value of [num_nets] when the part ends. *)
Definition reconcile_nic_count (vm : Obj) (networks : loc) : M Z :=
  num_nics ← gets (λ s, Z.of_nat (length (vm_network vm (st_server s))));
  num_nets ← py_len networks;
  let nets := networks in
  if decide (num_nics > num_nets) then
    let diff := num_nics - num_nets in
    log DEBUG "VM '%s' has %d extra NICs, removing..." [LStr (name_of vm); LInt diff];;
    for_each (λ '(i, nic), do_delete_nic vm nic)
      (zip (seqZ 1 diff) (reverse (range num_nics)));;
    mret num_nets
  else if decide (num_nics < num_nets) then
    let diff := num_nets - num_nics in
    log DEBUG "VM '%s' is deficient %d NICs, adding..." [LStr (name_of vm); LInt diff];;
    for_each (λ i, add_missing_nic vm nets) (range diff);;
    py_len networks
  else mret num_nets.

(** [_configure_nics], second part, one turn of the loop: edit interface [i]
    for [net_name]. *)
Definition edit_interface (vm : Obj) (instance : option Z) (net_name : string) (i : Z)
  : M unit :=
  net_name ← (if instance is Some inst then _get_net net_name inst else mret net_name);
  network ← do_get_network net_name;
  nic ← do_get_nic_by_id vm i;
  match nic with
  | None => raise AttributeError
  | Some backing_network =>
      if decide (backing_network = network) then mret tt
      else do_edit_nic vm i network net_name
  end.

(** [_configure_nics] *)
Definition _configure_nics (vm : Obj) (networks : loc) (instance : option Z) : M unit :=
  log DEBUG "Editing NICs for VM '%s'" [LStr (name_of vm)];;
  num_nets ← reconcile_nic_count vm networks;
  remaining ← py_list networks;
  for_each (λ '(net_name, i), edit_interface vm instance net_name i)
    (zip remaining (seqZ 1 num_nets)).

(** [_clone_service] *)
Definition _clone_service (folder_ : Obj) (service_name : value) : M (option Obj) :=
  b ← _is_vsphere service_name;
  if negb b then
    log DEBUG "Skipping non-vsphere service '%s'" [LVal service_name];;
    mret None
  else
    match service_name with
    | VStr name =>
        config ← (if dict_get name (services self) is Some c then mret c else raise KeyError);
        log DEBUG "Cloning service '%s'" [LStr name];;
        let vm_name := master_prefix +:+ name in
        tpl ← (if sd_template config is Some t then mret t else raise KeyError);
        template ← do_traverse_path (template_folder self) tpl;
        match template with
        | None =>
            log ERROR "Could not find template '%s' for service '%s'" [LStr tpl; LStr name];;
            mret None
        | Some template =>
            do_clone_vm template folder_ vm_name;;
            vm ← do_traverse_path folder_ vm_name;
            match vm with
            | Some vm =>
                log DEBUG "Successfully cloned service '%s' to folder '%s'"
                  [LStr name; LStr (name_of folder_)];;
                (if sd_note config is Some note then do_set_note vm note else mret tt);;
                mret (Some vm)
            | None =>
                log ERROR "Failed to clone VM '%s' for service '%s'" [LStr vm_name; LStr name];;
                mret None
            end
        end
    | _ => raise TypeError
    end.

(** [sconfig["networks"]], the list object a validated specification has
    there (anything else is [Unmodelled]). *)
Definition networks_of (sconfig : value) : M loc :=
  nets ← py_getitem sconfig "networks";
  if nets is VList l then mret l else raise Unmodelled.

(** [_master_base_folder_gen], one turn of the loop over the services of
    the folder. *)
Definition master_service_gen (folder_name : string) (parent : Obj)
    (item : string * value) : M unit :=
  let '(sname, sconfig) := item in
  sref ← py_getitem sconfig "service";
  is_vs ← _is_vsphere sref;
  if negb is_vs then
    log DEBUG "Skipping non-vsphere service '%s'" [LStr sname]
  else
    log INFO "Creating Master instance '%s' from service '%s'" [LStr sname; LVal sref];;
    vm ← _clone_service parent sref;
    match vm with
    | None =>
        log ERROR "Failed to create Master instance '%s' in folder '%s'"
          [LStr sname; LStr folder_name]
    | Some vm =>
        nets ← networks_of sconfig;
        _configure_nics vm nets None;;
        do_create_snapshot vm "initial mastering snapshot"
          "Beginning of Master configuration"
    end.

(** [_master_base_folder_gen] *)
Definition _master_base_folder_gen (folder_name : string) (folder_dict : value) (parent : Obj)
  : M unit :=
  has_mg ← py_contains "master-group" folder_dict;
  g ← py_getitem folder_dict (if has_mg : bool then "master-group" else "group");
  master_group ← _get_group g;
  svcs ← py_getitem folder_dict "services";
  items ← py_items svcs;
  for_each (master_service_gen folder_name parent) items.

(** [_master_parent_folder_gen].  The bindings [group] and [master_group]
    are written and never read; what remains of them is the effect of
    [_get_group]. *)
Fixpoint _master_parent_folder_gen (folder_ : value) (parent : Obj) {struct folder_} : M unit :=
  let skip_keys := ["instances"; "description"; "enabled"] in
  en ← _is_enabled folder_;
  if en : bool then
    log WARNING "Skipping disabled parent-type folder %s" [LStr (name_of parent)]
  else
    match folder_ with
    | VDict items =>
        for_each (λ '(sub_name, sub_value),
            if bool_decide (sub_name ∈ skip_keys) then mret tt
            else if decide (sub_name = "group") then _get_group sub_value;; mret tt
            else if decide (sub_name = "master-group") then _get_group sub_value;; mret tt
            else
              let folder_name := master_prefix +:+ sub_name in
              new_folder ← do_create_folder folder_name parent;
              is_base ← py_contains "services" sub_value;
              if is_base : bool then
                en ← _is_enabled sub_value;
                if en : bool then
                  log INFO "Generating Master base-type folder %s" [LStr sub_name];;
                  _master_base_folder_gen sub_name sub_value new_folder
                else
                  log WARNING "Skipping disabled base-type folder %s" [LStr sub_name]
              else
                en ← _is_enabled sub_value;
                if en : bool then
                  _master_parent_folder_gen sub_value new_folder;;
                  log INFO "Generating Master parent-type folder %s" [LStr sub_name]
                else
                  log WARNING "Skipping disabled parent-type folder %s" [LStr sub_name])
          items
    | _ => raise AttributeError
    end.

(** [_deploy_gen_services], one turn of the loop over the services. *)
Definition deploy_service_gen (parent : Obj) (path : string) (instance : Z)
    (item : string * value) : M unit :=
  let '(service_name, value_) := item in
  sref ← py_getitem value_ "service";
  is_vs ← _is_vsphere sref;
  if negb is_vs then
    log DEBUG "Skipping non-vsphere service '%s'" [LStr service_name]
  else
    log INFO "Generating service '%s' in folder '%s'"
      [LStr service_name; LStr (name_of parent)];;
    '(num_instances, prefix) ← _instances_handler value_ service_name KService;
    sname ← (if sref is VStr n then mret n else raise TypeError);
    service ← do_traverse_path (master_folder self) (_path path sname);
    match service with
    | None =>
        log ERROR "Could not find Master instance for service '%s' in this path:\n%s"
          [LVal sref; LStr path]
    | Some service =>
        for_each (λ i,
            let instance_name :=
              prefix +:+ service_name
                +:+ (if decide (num_instances > 1) then " " +:+ pad i else "") in
            do_clone_vm service parent instance_name;;
            vm ← do_traverse_path parent instance_name;
            match vm with
            | Some vm =>
                nets ← networks_of value_;
                _configure_nics vm nets (Some instance)
            | None =>
                log ERROR "Could not find cloned instance '%s' in folder '%s'"
                  [LStr instance_name; LStr service_name; LStr (name_of parent)]
            end)
          (range num_instances)
    end.

(** [_deploy_gen_services] *)
Definition _deploy_gen_services (services_ : value) (parent : Obj) (path : string)
    (instance : Z) : M unit :=
  items ← py_items services_;
  for_each (deploy_service_gen parent path instance) items.

(** The name of instance [i] of a folder: the folder's name if no prefix is
    defined or there is a single instance, else the prefix; followed by the
    padded instance number if there are several instances. *)
Definition instance_name_of (name prefix : string) (num_instances i : Z) : string :=
  (if bool_decide (prefix = "") || bool_decide (num_instances = 1) then name else prefix)
    +:+ (if decide (num_instances > 1) then pad i else "").

(** [_deploy_base_folder_gen] *)
Definition _deploy_base_folder_gen (folder_name : string) (folder_items : value)
    (parent : Obj) (path : string) : M unit :=
  g ← py_getitem folder_items "group";
  group ← _get_group g;
  '(num_instances, prefix) ← _instances_handler folder_items folder_name KFolder;
  log INFO "Deploying base-type folder '%s'" [LStr folder_name];;
  for_each (λ i,
      let instance_name := instance_name_of folder_name prefix num_instances i in
      new_folder ← (if decide (num_instances > 1)
                    then do_create_folder instance_name parent
                    else mret parent);
      log INFO "Generating services for base-type folder instance '%s'" [LStr instance_name];;
      svcs ← py_getitem folder_items "services";
      _deploy_gen_services svcs new_folder (_path path folder_name) i)
    (range num_instances).

(** [_deploy_parent_folder_gen] *)
Fixpoint _deploy_parent_folder_gen (spec : value) (parent : Obj) (path : string)
    {struct spec} : M unit :=
  let skip_keys := ["instances"; "description"; "master-group"; "enabled"] in
  en ← _is_enabled spec;
  if negb en then
    log WARNING "Skipping disabled parent-type folder %s" [LStr (name_of parent)]
  else
    match spec with
    | VDict items =>
        for_each (λ '(sub_name, sub_value),
            if bool_decide (sub_name ∈ skip_keys) then mret tt
            else if decide (sub_name = "group") then _get_group sub_value;; mret tt
            else
              log DEBUG "Deploying parent-type folder '%s'" [LStr sub_name];;
              '(num_instances, prefix) ← _instances_handler spec sub_name KFolder;
              for_each (λ i,
                  let instance_name := instance_name_of sub_name prefix num_instances i in
                  new_folder ← do_create_folder instance_name parent;
                  is_base ← py_contains "services" sub_value;
                  if is_base : bool then
                    en ← _is_enabled sub_value;
                    if en : bool then
                      _deploy_base_folder_gen sub_name sub_value new_folder
                        (_path path sub_name)
                    else
                      log WARNING "Skipping disabled base-type folder %s" [LStr sub_name]
                  else
                    en ← _is_enabled sub_value;
                    if en : bool then
                      _deploy_parent_folder_gen sub_value new_folder (_path path sub_name)
                    else
                      log WARNING "Skipping disabled parent-type folder %s" [LStr sub_name])
                (range num_instances))
          items
    | _ => raise AttributeError
    end.

(** ** The reconciliation walk of the specification

    The name a declared network resolves to (section 4.2 of the
    specification, [resolve], with the instance index [-1] of [_get_net] for
    "none given") and the walk over the NIC slots (section 4.3, third step),
    written after the specification to be compared with [_get_net] and
    [_configure_nics]; and the predicates the statements below use. *)

(** The category [_determine_net_type] finds for a network name. *)
Definition net_type_of (network_label : string) : string :=
  match List.find (λ kv, bool_decide (network_label ∈ kv.2.*1)) (networks self) with
  | Some (net_name, _) => net_name
  | None => ""
  end.

(** The concrete name of a declared network: the name itself for a unique
    network or when no instance index is given, the per-instance name for a
    generic network, none otherwise. *)
Definition resolved_name (instance : option Z) (name : string) : option string :=
  match instance with
  | None => Some name
  | Some i =>
      if decide (net_type_of name = "unique-networks") then Some name
      else if decide (net_type_of name = "generic-networks") then
        if decide (i = -1) then None else Some (name +:+ "-GENERIC-" +:+ pad i)
      else None
  end.

(** NIC slot [k] points at the network that [name] resolves to. *)
Definition slot_points_at (vm : Obj) (instance : option Z) (k : Z) (name : string)
    (srv : Server) : Prop :=
  ∃ r net, resolved_name instance name = Some r
           ∧ get_network r srv = Some net
           ∧ get_nic_by_id vm k srv = Some (Some net).

(** Walk the NIC slots [1..m] against [declared], in order: resolve the
    name declared for the slot, skip the NIC if it already points at that
    network, otherwise edit its backing and set its summary. *)
Definition walk_slots (vm : Obj) (declared : list string) (instance : option Z) (m : nat)
  : M unit :=
  for_each (λ k : nat,
      match declared !! pred k with
      | None => mret tt
      | Some name =>
          resolved ← (if instance is Some i then _get_net name i else mret name);
          network ← do_get_network resolved;
          nic ← do_get_nic_by_id vm (Z.of_nat k);
          match nic with
          | None => raise AttributeError
          | Some backing_network =>
              if decide (backing_network = network) then mret tt
              else do_edit_nic vm (Z.of_nat k) network resolved
          end
      end)
    (seq 1 m).

(** The hypervisor and the specification's lists are the same in [s'] as in
    [s], and no driver call was issued in between. *)
Definition untouched (s s' : State) : Prop :=
  st_server s' = st_server s ∧ st_calls s' = st_calls s ∧ st_heap s' = st_heap s.

(** A computation that removes no entry of [self.net_table], however it
    ends. *)
Definition keeps_net_table {A} (m : M A) : Prop :=
  ∀ s, st_net_table s ⊆ st_net_table (final_state (m s)).

(** The calls of a trace that create a portgroup, those that clone a
    machine, and those that add, delete or edit a NIC. *)
Definition is_create_portgroup (c : call) : bool :=
  match c with CCreatePortgroup _ _ _ _ => true | _ => false end.

Definition is_clone_vm (c : call) : bool :=
  match c with CCloneVm _ _ _ => true | _ => false end.

Definition is_nic_change (c : call) : bool :=
  match c with CDeleteNic _ _ | CAddNic _ _ _ _ | CEditNic _ _ _ _ => true | _ => false end.

(** [m] takes every state to one related to it by [R], however it ends. *)
Definition preserves {A} (R : relation State) (m : M A) : Prop :=
  ∀ s, R s (final_state (m s)).

(** Between [s] and [s'] nothing but logging happened: the hypervisor, the
    driver calls, the lookups, the lookup table and the specification's
    lists are the same. *)
Definition logged_only : relation State :=
  λ s s', untouched s s'
          ∧ st_net_table s' = st_net_table s
          ∧ st_lookups s' = st_lookups s.

(** The driver calls issued between [s] and [s'] all satisfy [P]. *)
Definition calls_added (P : call → Prop) : relation State :=
  λ s s', ∃ new, st_calls s' = st_calls s ++ new ∧ Forall P new.

(** In [s'] the specification has the list objects it has in [s], and each
    is a prefix of what it is in [s]. *)
Definition lists_shortened : relation State :=
  λ s s', ∀ l, option_Forall2 (λ after before : list string, after `prefix_of` before)
                 (st_heap s' !! l) (st_heap s !! l).

(** The lookup table is the same in [s'] as in [s]. *)
Definition table_kept : relation State :=
  λ s s', st_net_table s' = st_net_table s.

(** Kinds of driver call. *)
Definition is_create_folder (c : call) : bool :=
  match c with CCreateFolder _ _ => true | _ => false end.

Definition is_set_note (c : call) : bool :=
  match c with CSetNote _ _ => true | _ => false end.

Definition is_create_snapshot (c : call) : bool :=
  match c with CCreateSnapshot _ _ _ => true | _ => false end.

(** The calls Master generation issues below the Master folder, and the
    calls Deployment issues. *)
Definition is_master_call (c : call) : bool :=
  is_create_folder c || is_clone_vm c || is_set_note c || is_nic_change c
  || is_create_snapshot c.

Definition is_deploy_call (c : call) : bool :=
  is_create_folder c || is_clone_vm c || is_nic_change c || is_create_portgroup c.

(** The calls the generation of the services of a folder may issue: a clone
    into that folder, a change of a NIC, the creation of a portgroup. *)
Definition is_service_call_in (folder_ : Obj) (c : call) : Prop :=
  match c with
  | CCloneVm _ f _ => f = folder_
  | CDeleteNic _ _ | CAddNic _ _ _ _ | CEditNic _ _ _ _ => True
  | CCreatePortgroup _ _ _ _ => True
  | _ => False
  end.

(** The calls [_create_master_networks] may issue for a category: the
    refresh of the network system and, if it is asked to create what is
    missing, the creation of a portgroup for a network of the category, not
    promiscuous, with the VLAN of its configuration or 2000 and the vswitch
    of its configuration or the default one. *)
Definition is_master_network_call (net_type : string) (default_create : bool) (c : call)
  : Prop :=
  match c with
  | CRefreshNetworkSystem => True
  | CCreatePortgroup name promiscuous vlan vswitch =>
      default_create = true ∧ promiscuous = false
      ∧ ∃ nets config,
          dict_get net_type (networks self) = Some nets
          ∧ (name, config) ∈ nets
          ∧ vlan = default 2000 (nc_vlan config)
          ∧ vswitch = default (vswitch_name self) (nc_vswitch config)
  | _ => False
  end.

End Interface.

Global Arguments VsphereInterface {_}.
Global Arguments State {_}.
Global Arguments M {_} _.
Global Arguments outcome {_} _.

(** ** The Master creation phase

    [create_masters] sets [self.template_folder] and [self.master_folder] and
    then runs the creation of the networks and the Master walk, which read
    them: the two are run on the interface with these attributes set.
    Besides the attributes of [VsphereInterface] it reads
    [self.server_root], [self.root_name] and [self.infra["template-folder"]]
    ([None] for an infrastructure without that key).  Its last statement logs
    the tree below the environment root as the driver renders it,
    [folder_utils.format_structure(folder_utils.enumerate_folder(folder))]. *)
Section Phases.
Context `{Hypervisor}.

Definition with_folders (self : VsphereInterface) (master template : Obj)
  : VsphereInterface :=
  {| services := services self;
     networks := networks self;
     folders := folders self;
     groups := groups self;
     host_name := host_name self;
     vswitch_name := vswitch_name self;
     root_folder := root_folder self;
     master_folder := master;
     template_folder := template |}.

(** [create_masters] *)
Definition create_masters (format_structure : Obj → Server → string)
    (self : VsphereInterface) (server_root : Obj) (root_name : string)
    (infra_template_folder : option string) : M unit :=
  path ← (if infra_template_folder is Some p then mret p else raise KeyError);
  template ← do_traverse_path server_root path;
  match template with
  | None => log ERROR "Could not find template folder in path '%s'" [LStr path]
  | Some template =>
      log DEBUG "Found template folder: '%s'" [LStr (name_of template)];;
      master ← do_create_folder master_root_name (root_folder self);
      log INFO "Created Master folder '%s' in '%s'" [LStr master_root_name; LStr root_name];;
      let self := with_folders self master template in
      for_each (λ '(net, _), _create_master_networks self net true) (networks self);;
      _master_parent_folder_gen self (folders self) (master_folder self);;
      tree ← gets (λ s, format_structure (root_folder self) (st_server s));
      log DEBUG tree []
  end.

End Phases.

(** ** A reference hypervisor

    A small executable hypervisor, used to run the interface on concrete
    specifications.  A managed object is the list of names leading to it from
    the top of the inventory; a network is its portgroup. *)
Module Ref.

Record portgroup : Type := Portgroup {
  pg_name : string;
  pg_promiscuous : bool;
  pg_vlan : Z;
  pg_vswitch : string
}.

#[export] Instance portgroup_eq_dec : EqDecision portgroup := ltac:(solve_decision).

Record nic : Type := Nic {
  nic_backing : option portgroup;
  nic_model : string;
  nic_summary : string
}.

Inductive entity : Type :=
| EFolder
| EVm (nics : list nic) (tools : bool).

Record server : Type := mkServer {
  inventory : list (list string * entity);
  portgroups : list portgroup
}.

Definition lookup_entity (p : list string) (srv : server) : option entity :=
  snd <$> List.find (λ e, bool_decide (e.1 = p)) (inventory srv).

Definition put_entity (p : list string) (e : entity) (srv : server) : server :=
  mkServer (List.filter (λ x, negb (bool_decide (x.1 = p))) (inventory srv) ++ [(p, e)])
    (portgroups srv).

(** The components of a path written with ["/"]; empty components are dropped. *)
Fixpoint split_path_go (cur : string) (path : string) : list string :=
  match path with
  | EmptyString => if bool_decide (cur = "") then [] else [cur]
  | String c rest =>
      if bool_decide (c = "/"%char)
      then (if bool_decide (cur = "") then [] else [cur]) ++ split_path_go "" rest
      else split_path_go (cur +:+ String c EmptyString) rest
  end.

Definition split_path (path : string) : list string := split_path_go "" path.

(** The path string of an object below [root], as [_path] writes it. *)
Definition path_string (components : list string) : string :=
  foldr (λ c acc, "/" +:+ c +:+ acc) "" components.

Definition vm_nics (vm : list string) (srv : server) : list nic :=
  match lookup_entity vm srv with
  | Some (EVm nics _) => nics
  | _ => []
  end.

Definition update_nics (f : list nic → list nic) (vm : list string) (srv : server) : server :=
  match lookup_entity vm srv with
  | Some (EVm nics tools) => put_entity vm (EVm (f nics) tools) srv
  | _ => srv
  end.

(** Modelled from the spec: the Hypervisor Driver contract of section 6
    ([createFolder], [findByPath], [cloneVM], [setNote], [createSnapshot],
    [listNics], [addNic], [deleteNic], [editNic], [hasGuestTools],
    [networkExists], [createPortgroup]) and the zero-padding of instance
    numbers; the modules that implement them ([adles.vsphere.*],
    [adles.utils]) are not part of the verified file.  Folders and machines
    are found by path, a clone copies the source machine under the new name,
    NIC slots are numbered from 1 in list order, a portgroup exists from its
    creation on, and notes and snapshots leave the inventory as it is. *)
#[export] Instance hypervisor : Hypervisor := {
  Server := server;
  Obj := list string;
  Net := portgroup;
  name_of p := default "" (last p);
  create_folder name parent srv :=
    let p := parent ++ [name] in
    (p, if lookup_entity p srv is Some _ then srv else put_entity p EFolder srv);
  traverse_path root path srv :=
    let p := root ++ split_path path in
    if lookup_entity p srv is Some _ then Some p else None;
  clone_vm vm folder_ name srv :=
    match lookup_entity vm srv with
    | Some (EVm nics tools) => put_entity (folder_ ++ [name]) (EVm nics tools) srv
    | _ => srv
    end;
  set_note _ _ srv := srv;
  create_snapshot _ _ _ srv := srv;
  get_network name srv := List.find (λ pg, bool_decide (pg_name pg = name)) (portgroups srv);
  create_portgroup name promiscuous vlan vswitch srv :=
    mkServer (inventory srv) (portgroups srv ++ [Portgroup name promiscuous vlan vswitch]);
  refresh_network_system srv := srv;
  vm_network vm srv := omap nic_backing (vm_nics vm srv);
  has_tools vm srv :=
    match lookup_entity vm srv with Some (EVm _ tools) => tools | _ => false end;
  delete_nic vm n srv :=
    if decide (1 ≤ n) then update_nics (λ nics, delete (Z.to_nat (n - 1)) nics) vm srv else srv;
  add_nic vm net model summary srv := update_nics (λ nics, nics ++ [Nic net model summary]) vm srv;
  edit_nic vm i net summary srv :=
    if decide (1 ≤ i)
    then update_nics (alter (λ n, Nic net (nic_model n) summary) (Z.to_nat (i - 1))) vm srv
    else srv;
  get_nic_by_id vm i srv :=
    if decide (1 ≤ i) then nic_backing <$> (vm_nics vm srv !! Z.to_nat (i - 1)) else None;
  pad i := if decide (0 ≤ i < 10) then "0" +:+ str_int i else str_int i
}.

Definition init (srv : server) (heap : gmap loc (list string)) : State :=
  mkState srv heap ∅ [] [] [].

End Ref.

(** ** Concrete specifications

    An environment [Env] with a template [web-tmpl], one hypervisor-managed
    service [web], a unique network [internet] and a generic network [lan]. *)
Module Examples.
Import Ref.

Definition internet_pg : portgroup := Portgroup "internet" false 10 "vSwitch0".
Definition dmz_pg : portgroup := Portgroup "dmz" false 11 "vSwitch0".
Definition office_pg : portgroup := Portgroup "office" false 12 "vSwitch0".

Definition env_root : list string := ["Env"].
Definition env_master : list string := ["Env"; "MASTER-FOLDERS"].

(** The inventory before Master generation. *)
Definition srv0 : server :=
  mkServer [ (env_root, EFolder); (env_master, EFolder);
             (["Templates"], EFolder);
             (["Templates"; "web-tmpl"], EVm [] true) ]
           [internet_pg; dmz_pg; office_pg].

(** A base folder [Team] with one instance of the service [web]. *)
Definition team : value :=
  VDict [("group", VStr "students");
         ("services", VDict [("web", VDict [("service", VStr "web");
                                             ("networks", VList 1%positive)])])].

(** [folders: {Team: ...}] and the same tree switched off at its top. *)
Definition tree : value := VDict [("Team", team)].
Definition tree_off : value := VDict [("enabled", VBool false); ("Team", team)].

(** The tree switched off at its top, with [Team] switched off as well. *)
Definition tree_off_team_off : value :=
  VDict [("enabled", VBool false);
         ("Team", VDict [("enabled", VBool false);
                         ("group", VStr "students");
                         ("services", VDict [])])].

(** [folders: {Pods: {instances: 2, Team: ...}}] *)
Definition pods_tree : value :=
  VDict [("Pods", VDict [("instances", VInt 2); ("Team", team)])].

Definition interface (f : value) : VsphereInterface := {|
  services := [("web", ServiceDef (Some "web-tmpl") None)];
  networks := [("unique-networks", [("internet", NetConfig None None);
                                    ("dmz", NetConfig None None);
                                    ("office", NetConfig None None)]);
               ("generic-networks", [("lan", NetConfig None None)])];
  folders := f;
  groups := [("students", StandardGroup (mkGroup "students"))];
  host_name := "esx1";
  vswitch_name := "vSwitch0";
  root_folder := env_root;
  master_folder := env_master;
  template_folder := ["Templates"]
|}.

(** The service [web] of [team] declares no network. *)
Definition heap0 : gmap loc (list string) := {[ 1%positive := [] ]}.

(** A machine with one NIC, on [internet], and the list
    [networks: [internet, dmz, office]] of its service. *)
Definition vm1 : list string := ["Env"; "vm1"].
Definition srv_vm1 : server :=
  mkServer [ (env_root, EFolder);
             (vm1, EVm [Nic (Some internet_pg) "vmxnet3" "internet"] true) ]
           [internet_pg; dmz_pg; office_pg].
Definition heap_vm1 : gmap loc (list string) :=
  {[ 1%positive := ["internet"; "dmz"; "office"] ]}.

(** A deployed machine of folder instance 3 with two NICs, on [internet] and
    on the instance's [lan], and the list [networks: [internet, lan]] of its
    service. *)
Definition lan3_pg : portgroup := Portgroup "lan-GENERIC-03" false 2000 "vSwitch0".
Definition vm2 : list string := ["Env"; "vm2"].
Definition srv_vm2 : server :=
  mkServer [ (env_root, EFolder);
             (vm2, EVm [Nic (Some internet_pg) "vmxnet3" "internet";
                        Nic (Some lan3_pg) "vmxnet3" "lan-GENERIC-03"] true) ]
           [internet_pg; lan3_pg].
Definition heap_vm2 : gmap loc (list string) := {[ 1%positive := ["internet"; "lan"] ]}.

(** A service instance that refers to a service [ftp] the catalog lacks. *)
Definition ftp_instance : list (string * value) :=
  [("service", VStr "ftp"); ("networks", VList 1%positive)].

(** The inventory after Master generation: the Master of [web] is in the
    Master folder. *)
Definition srv_mastered : server :=
  mkServer [ (env_root, EFolder); (env_master, EFolder);
             (["Templates"], EFolder);
             (["Templates"; "web-tmpl"], EVm [] true);
             (["Env"; "MASTER-FOLDERS"; "(MASTER) web"], EVm [] true) ]
           [internet_pg; dmz_pg; office_pg].

Definition web_instances (n : Z) : list (string * value) :=
  [("service", VStr "web"); ("instances", VInt n); ("networks", VList 1%positive)].

(** A catalog with a service [mail] that has no template, and an instance of
    that service. *)
Definition mixed_interface : VsphereInterface := {|
  services := [("web", ServiceDef (Some "web-tmpl") None); ("mail", ServiceDef None None)];
  networks := [("unique-networks", [("internet", NetConfig None None)]);
               ("generic-networks", [("lan", NetConfig None None)])];
  folders := tree;
  groups := [("students", StandardGroup (mkGroup "students"))];
  host_name := "esx1";
  vswitch_name := "vSwitch0";
  root_folder := env_root;
  master_folder := env_master;
  template_folder := ["Templates"]
|}.
Definition mail_instance : list (string * value) :=
  [("service", VStr "mail"); ("networks", VList 1%positive)].

(** Base folders without services: a plain one, one with [instances: 2], and
    one that names no group. *)
Definition plain_folder : list (string * value) :=
  [("group", VStr "students"); ("services", VDict [])].
Definition double_folder : list (string * value) :=
  [("group", VStr "students"); ("instances", VInt 2); ("services", VDict [])].
Definition groupless_folder : list (string * value) := [("services", VDict [])].

(** Nodes with a structured [instances] directive: [number] and [prefix],
    and [prefix] and [size-of]. *)
Definition numbered_directive : list (string * value) :=
  [("number", VInt 3); ("prefix", VStr "Pod")].
Definition sized_directive : list (string * value) :=
  [("prefix", VStr "Pod"); ("size-of", VStr "students")].

(** The list [networks: [internet]]. *)
Definition heap_one_net : gmap loc (list string) := {[ 1%positive := ["internet"] ]}.

End Examples.

(** * Properties *)

(** Unfold the monad operations in the goal. *)
Ltac munfold :=
  unfold mbind, M_bind, bind, mret, M_ret, ret, raise, gets, modify, log in *.

Section Properties.
Context `{Hypervisor} (self : VsphereInterface).

Implicit Types (s : State) (items : list (string * value)).

(** ** Dictionaries and loops *)

Lemma dict_get_Some_elem {A} (key : string) (l : list (string * A)) (x : A) :
  dict_get key l = Some x → key ∈ l.*1.
Proof.
  unfold dict_get. induction l as [|[k v] l IH]; simpl; [done|].
  case_bool_decide; simpl in *.
  - subst. intros _. apply list_elem_of_here.
  - intros Hx. apply list_elem_of_further, IH, Hx.
Qed.

Lemma dict_get_None_not_elem {A} (key : string) (l : list (string * A)) :
  dict_get key l = None → key ∉ l.*1.
Proof.
  unfold dict_get. induction l as [|[k v] l IH]; simpl.
  - intros _. apply not_elem_of_nil.
  - case_bool_decide; simpl in *; [done|].
    intros Hx. apply not_elem_of_cons. split; [congruence|]. apply IH, Hx.
Qed.

Lemma dict_get_elem_is_Some {A} (key : string) (l : list (string * A)) :
  key ∈ l.*1 → is_Some (dict_get key l).
Proof.
  intros Hin. destruct (dict_get key l) eqn:E; [eauto|].
  apply dict_get_None_not_elem in E. done.
Qed.

Lemma for_each_app {A} (body : A → M unit) (xs ys : list A) s :
  for_each body (xs ++ ys) s = (for_each body xs;; for_each body ys) s.
Proof.
  revert s. induction xs as [|x xs IH]; intros s; simpl; [done|].
  munfold. destruct (body x s) as [[] s'|e s']; [|done]. apply IH.
Qed.

Lemma for_each_cons {A} (body : A → M unit) (x : A) (xs : list A) s :
  for_each body (x :: xs) s = (body x;; for_each body xs) s.
Proof. done. Qed.

(** ** Instance resolution *)

Lemma py_contains_dict (key : string) items s :
  py_contains key (VDict items) s = Ok (bool_decide (key ∈ items.*1)) s.
Proof. done. Qed.

(** A bare count within the warn threshold is returned as it is, with no
    prefix, and nothing is logged. *)
Lemma instances_handler_within_warn (kind : object_kind) (n : Z) (name : string) items s :
  dict_get "instances" items = Some (VInt n) →
  n ≤ warn (thresholds kind) →
  _instances_handler (VDict items) name kind s = Ok (n, "") s.
Proof.
  intros Hget Hn. unfold _instances_handler. munfold. simpl.
  rewrite bool_decide_eq_true_2 by (eapply dict_get_Some_elem, Hget).
  rewrite Hget. munfold. simpl.
  assert (warn (thresholds kind) ≤ error (thresholds kind)) by (destruct kind; simpl; lia).
  destruct (decide (n > error (thresholds kind))); [lia|].
  destruct (decide (n > warn (thresholds kind))); [lia|]. done.
Qed.

(** A node without [instances] resolves to one instance and no prefix. *)
Lemma instances_handler_default (kind : object_kind) (name : string) items s :
  dict_get "instances" items = None →
  _instances_handler (VDict items) name kind s = Ok (1, "") s.
Proof.
  intros Hget. unfold _instances_handler. munfold. simpl.
  rewrite bool_decide_eq_false_2 by (eapply dict_get_None_not_elem, Hget).
  destruct kind; done.
Qed.

(** C5.  A bare count above the warn threshold does not come back from
    [_instances_handler]: building the arguments of the log record reads
    [self.__name__], which raises [AttributeError] before the record is
    emitted; this holds in the warn range as well as above the error
    threshold. *)
Theorem instances_handler_above_warn_raises (kind : object_kind) (n : Z) (name : string)
    items s :
  dict_get "instances" items = Some (VInt n) →
  n > warn (thresholds kind) →
  _instances_handler (VDict items) name kind s = Raise AttributeError s.
Proof.
  intros Hget Hn. unfold _instances_handler. munfold. simpl.
  rewrite bool_decide_eq_true_2 by (eapply dict_get_Some_elem, Hget).
  rewrite Hget. munfold. simpl.
  destruct (decide (n > error (thresholds kind))); [done|].
  destruct (decide (n > warn (thresholds kind))); [done|lia].
Qed.

(** ** Network resolution *)

Lemma determine_net_type_value (name : string) s :
  ∃ s', _determine_net_type self name s = Ok (net_type_of self name) s'
        ∧ st_server s' = st_server s ∧ st_heap s' = st_heap s
        ∧ st_net_table s' = st_net_table s ∧ st_calls s' = st_calls s
        ∧ st_lookups s' = st_lookups s
        ∧ (net_type_of self name ≠ "" → s' = s).
Proof.
  unfold _determine_net_type, net_type_of.
  destruct (List.find _ _) as [[k v]|]; munfold; simpl; eauto 10.
  eexists. split; [done|]. repeat split; done.
Qed.

Lemma find_dict_get {A} (P : string * A → bool) (l : list (string * A)) (k : string) (v : A) :
  NoDup l.*1 → List.find P l = Some (k, v) → dict_get k l = Some v.
Proof.
  unfold dict_get. induction l as [|[k' v'] l IH]; simpl; [done|].
  intros Hnd Hfind. apply NoDup_cons in Hnd as [Hk' Hnd].
  destruct (P (k', v')).
  - injection Hfind as -> ->. rewrite bool_decide_eq_true_2; done.
  - case_bool_decide as Hk; simpl in *.
    + subst k'. apply find_some in Hfind as [Hin _].
      exfalso. apply Hk'. apply list_elem_of_fmap. exists (k, v). split; [done|].
      by apply list_elem_of_In.
    + by apply IH.
Qed.

Lemma generic_config (name : string) :
  NoDup (networks self).*1 →
  net_type_of self name = "generic-networks" →
  ∃ g c, dict_get "generic-networks" (networks self) = Some g ∧ dict_get name g = Some c.
Proof.
  unfold net_type_of. intros Hnd Hty.
  destruct (List.find _ _) as [[k g]|] eqn:Hfind; [|done]. subst k.
  exists g. pose proof (find_dict_get _ _ _ _ Hnd Hfind) as Hg.
  apply find_some in Hfind as [_ Hin]. apply bool_decide_eq_true_1 in Hin. simpl in Hin.
  destruct (dict_get_elem_is_Some _ _ Hin) as [c Hc]. eauto.
Qed.

(** [_get_net] only adds to the lookup table, whatever it is called with and
    however it ends. *)
Lemma get_net_table_grows (name : string) (i : Z) s :
  st_net_table s ⊆ st_net_table (final_state (_get_net self name i s)).
Proof.
  unfold _get_net. munfold.
  destruct (determine_net_type_value name s) as (s' & -> & _ & _ & Ht & _).
  rewrite <- Ht. clear Ht s. rename s' into s.
  destruct (decide (_ = "unique-networks")); [done|].
  destruct (decide (_ = "generic-networks")); [|done].
  destruct (decide (i = -1)); [done|]. simpl.
  destruct (st_net_table s !! _) eqn:Hlook; simpl; [done|].
  unfold do_get_network, do_create_portgroup, next. munfold. simpl.
  destruct (get_network _ _); simpl.
  { by apply insert_subseteq. }
  destruct (dict_get "generic-networks" _); simpl; [|done].
  destruct (dict_get name _); simpl; [|done].
  by apply insert_subseteq.
Qed.

(** ** NIC reconciliation *)

Lemma untouched_refl s : untouched s s.
Proof. done. Qed.

Lemma untouched_trans s1 s2 s3 : untouched s1 s2 → untouched s2 s3 → untouched s1 s3.
Proof. unfold untouched. intros (-> & -> & ->) (-> & -> & ->). done. Qed.

(** Resolving a name whose network exists leaves the hypervisor alone. *)
Lemma get_net_existing (name r : string) (i : Z) (net : Net) s :
  resolved_name self (Some i) name = Some r →
  get_network r (st_server s) = Some net →
  ∃ s', _get_net self name i s = Ok r s' ∧ untouched s s'.
Proof.
  unfold resolved_name, _get_net. intros Hres Hnet. munfold.
  destruct (determine_net_type_value name s) as (s' & -> & Hsrv & Hheap & Htab & Hcalls & _).
  assert (Hu : untouched s s') by done.
  rewrite <- Hsrv in Hnet. clear Hsrv Hheap Hcalls.
  destruct (decide (_ = "unique-networks")).
  { injection Hres as ->. eauto. }
  destruct (decide (_ = "generic-networks")); [|done].
  destruct (decide (i = -1)); [done|]. injection Hres as <-. simpl.
  destruct (st_net_table s' !! _); simpl; [eauto|].
  unfold do_get_network. munfold. simpl. rewrite Hnet. simpl.
  eexists. split; [done|]. destruct Hu as (? & ? & ?). done.
Qed.

Lemma edit_interface_noop (vm : Obj) (instance : option Z) (name : string) (k : Z) s :
  slot_points_at self vm instance k name (st_server s) →
  ∃ s', edit_interface self vm instance name k s = Ok tt s' ∧ untouched s s'.
Proof.
  intros (r & net & Hres & Hnet & Hnic). unfold edit_interface. munfold.
  assert (∃ s', (if instance is Some inst then _get_net self name inst else λ s0, Ok name s0) s
                = Ok r s' ∧ untouched s s') as (s' & -> & Hu).
  { destruct instance as [i|].
    - eapply get_net_existing; eauto.
    - injection Hres as ->. eauto using untouched_refl. }
  unfold do_get_network, do_get_nic_by_id. munfold. simpl.
  destruct Hu as (Hsrv & Hcalls & Hheap). rewrite Hsrv, Hnet, Hnic.
  rewrite decide_True by done. eexists. split; [done|]. done.
Qed.

Lemma edit_loop_noop (vm : Obj) (instance : option Z) (declared : list string) (a n : Z) s :
  (∀ k name, declared !! k = Some name →
             slot_points_at self vm instance (a + Z.of_nat k) name (st_server s)) →
  ∃ s', for_each (λ '(net_name, i), edit_interface self vm instance net_name i)
          (zip declared (seqZ a n)) s = Ok tt s'
        ∧ untouched s s'.
Proof.
  revert a n s. induction declared as [|x xs IH]; intros a n s Hslots.
  { simpl. eauto using untouched_refl. }
  destruct (decide (0 < n)) as [Hn|Hn]; cycle 1.
  { rewrite seqZ_nil by lia. simpl. eauto using untouched_refl. }
  rewrite seqZ_cons by done. simpl. munfold.
  destruct (edit_interface_noop vm instance x a s) as (s1 & -> & Hu1).
  { specialize (Hslots 0%nat x eq_refl). by rewrite Z.add_0_r in Hslots. }
  destruct (IH (Z.succ a) (Z.pred n) s1) as (s2 & -> & Hu2).
  { intros k name Hk. destruct Hu1 as (-> & _).
    specialize (Hslots (S k) name Hk).
    by replace (Z.succ a + Z.of_nat k) with (a + Z.of_nat (S k)) by lia. }
  eauto using untouched_trans.
Qed.

(** C8.  On a VM that has as many NICs as the service declares networks and
    whose NIC [k] points at the network the [k]-th declared name resolves to,
    [_configure_nics] returns without a single driver call that changes the
    hypervisor (no NIC is added, deleted or edited, no portgroup created)
    and leaves the declared list as it is. *)
Theorem configure_nics_idempotent (vm : Obj) (networks_ : loc) (instance : option Z)
    (declared : list string) s :
  st_heap s !! networks_ = Some declared →
  length (vm_network vm (st_server s)) = length declared →
  (∀ k name, declared !! k = Some name →
             slot_points_at self vm instance (Z.of_nat (S k)) name (st_server s)) →
  ∃ s', _configure_nics self vm networks_ instance s = Ok tt s'
        ∧ st_calls s' = st_calls s
        ∧ filter is_nic_change (st_calls s') = filter is_nic_change (st_calls s)
        ∧ st_server s' = st_server s
        ∧ st_heap s' = st_heap s.
Proof.
  intros Hheap Hlen Hslots.
  unfold _configure_nics, reconcile_nic_count, py_len, py_list. munfold. simpl.
  rewrite Hheap. simpl. rewrite Hlen.
  rewrite decide_False by lia. rewrite decide_False by lia. simpl.
  rewrite Hheap.
  match goal with |- context [for_each _ _ ?s0] =>
    destruct (edit_loop_noop vm instance declared 1 (Z.of_nat (length declared)) s0)
      as (s' & -> & Hsrv & Hcalls & Hhp)
  end.
  { intros k name Hk. simpl.
    replace (1 + Z.of_nat k) with (Z.of_nat (S k)) by lia. by apply Hslots. }
  simpl in *. exists s'. rewrite Hcalls. done.
Qed.

Lemma delete_loop_heap (vm : Obj) (l : list (Z * Z)) s :
  ∃ s', for_each (λ '(i, nic), do_delete_nic vm nic) l s = Ok tt s'
        ∧ st_heap s' = st_heap s.
Proof.
  revert s. induction l as [|[i nic] l IH]; intros s; simpl; [eauto|].
  munfold. simpl.
  destruct (IH (add_call (CDeleteNic vm nic)
                  (set_server (delete_nic vm nic (st_server s)) s))) as (s' & Hrun & Hh).
  exists s'. split; [exact Hrun|exact Hh].
Qed.

Lemma add_missing_nic_heap (vm : Obj) (l : loc) (xs : list string) (x : string) s :
  st_heap s !! l = Some xs →
  last xs = Some x →
  ∃ s', add_missing_nic vm l s = Ok tt s'
        ∧ st_heap s' = <[l := take (pred (length xs)) xs]> (st_heap s).
Proof.
  intros Hheap Hlast.
  unfold add_missing_nic, do_has_tools, py_pop, py_list, do_get_network, do_add_nic.
  munfold. simpl. rewrite Hheap. simpl. rewrite Hlast. simpl. eauto.
Qed.

(** Adding [d] NICs pops the last [d] names off the declared list. *)
Lemma add_loop_heap (vm : Obj) (l : loc) (d : nat) (a : Z) (xs : list string) s :
  st_heap s !! l = Some xs →
  (d ≤ length xs)%nat →
  ∃ s', for_each (λ i : Z, add_missing_nic vm l) (seqZ a (Z.of_nat d)) s = Ok tt s'
        ∧ st_heap s' !! l = Some (take (length xs - d) xs).
Proof.
  revert a xs s. induction d as [|d IH]; intros a xs s Hheap Hd.
  { simpl. exists s. split; [done|]. rewrite Nat.sub_0_r, firstn_all. done. }
  rewrite seqZ_cons by lia. cbn [for_each].
  destruct (last xs) as [x|] eqn:Hlast; cycle 1.
  { apply last_None in Hlast. subst xs. simpl in Hd. lia. }
  destruct (add_missing_nic_heap vm l xs x s Hheap Hlast) as (s0 & Hstep & Hh0).
  munfold. rewrite Hstep.
  replace (Z.pred (Z.of_nat (S d))) with (Z.of_nat d) by lia.
  destruct (IH (Z.succ a) (take (pred (length xs)) xs) s0) as (s' & Hrun & Hh).
  { rewrite Hh0. by rewrite lookup_insert_eq. }
  { rewrite length_take. lia. }
  exists s'. split; [exact Hrun|]. rewrite Hh.
  rewrite length_take, take_take. f_equal. f_equal. lia.
Qed.

Lemma reconcile_nic_count_heap (vm : Obj) (l : loc) (declared : list string) s :
  st_heap s !! l = Some declared →
  let m := Nat.min (length (vm_network vm (st_server s))) (length declared) in
  ∃ s1, reconcile_nic_count vm l s = Ok (Z.of_nat m) s1
        ∧ st_heap s1 !! l = Some (take m declared).
Proof.
  intros Hheap m. unfold reconcile_nic_count, py_len, py_list. munfold. simpl.
  rewrite Hheap. simpl.
  destruct (decide (_ > _)) as [Hgt|Hle].
  - simpl.
    match goal with |- context [for_each _ ?l0 ?s0] =>
      destruct (delete_loop_heap vm l0 s0) as (s' & -> & Hh)
    end.
    exists s'. replace m with (length declared) by lia.
    split; [done|]. rewrite Hh, firstn_all. done.
  - destruct (decide (_ < _)) as [Hlt|Hge].
    + simpl. unfold range.
      replace (Z.of_nat (length declared) - Z.of_nat (length (vm_network vm (st_server s))))
        with (Z.of_nat (length declared - length (vm_network vm (st_server s)))) by lia.
      match goal with |- context [for_each _ _ ?s0] =>
        destruct (add_loop_heap vm l
                    (length declared - length (vm_network vm (st_server s))) 0 declared s0)
          as (s' & -> & Hh)
      end; [done|lia|].
      rewrite Hh. simpl. exists s'.
      replace (length declared - (length declared - length (vm_network vm (st_server s))))%nat
        with m in * by lia.
      split; [|done]. rewrite length_take. do 2 f_equal. lia.
    + exists s. replace m with (length declared) by lia.
      split; [done|]. rewrite firstn_all. done.
Qed.

Lemma for_each_pointwise {A B} (f : A → M unit) (g : B → M unit) (xs : list A)
    (ys : list B) :
  Forall2 (λ x y, ∀ s, f x s = g y s) xs ys →
  ∀ s, for_each f xs s = for_each g ys s.
Proof.
  induction 1 as [|x y xs ys Hxy _ IH]; intros s; [done|].
  cbn [for_each]. munfold. rewrite Hxy. destruct (g y s); [apply IH|done].
Qed.

Lemma zip_slots (declared : list string) (j m : nat) :
  (j + m ≤ length declared)%nat →
  Forall2 (λ (p : string * Z) (k : nat), declared !! pred k = Some p.1 ∧ p.2 = Z.of_nat k)
    (zip (take m (drop j declared)) (seqZ (Z.of_nat (S j)) (Z.of_nat m)))
    (seq (S j) m).
Proof.
  revert j. induction m as [|m IH]; intros j Hjm; [constructor|].
  destruct (lookup_lt_is_Some_2 declared j) as [x Hx]; [lia|].
  rewrite (drop_S _ _ _ Hx). rewrite seqZ_cons by lia.
  replace (Z.succ (Z.of_nat (S j))) with (Z.of_nat (S (S j))) by lia.
  replace (Z.pred (Z.of_nat (S m))) with (Z.of_nat m) by lia.
  cbn [take zip zip_with seq]. constructor; [done|]. apply IH. lia.
Qed.

Lemma edit_loop_walk (vm : Obj) (instance : option Z) (declared : list string) (m : nat) s :
  (m ≤ length declared)%nat →
  for_each (λ '(net_name, i), edit_interface self vm instance net_name i)
    (zip (take m declared) (seqZ 1 (Z.of_nat m))) s
  = walk_slots self vm declared instance m s.
Proof.
  intros Hm. unfold walk_slots. apply for_each_pointwise.
  pose proof (zip_slots declared 0 m Hm) as Hzip. rewrite drop_0 in Hzip.
  eapply Forall2_impl; [exact Hzip|].
  intros [name i] k [Hname Hi] s'. simpl in *. subst i. rewrite Hname. done.
Qed.

(** C6, as amended.  After the NIC count has been reconciled,
    [_configure_nics] walks the NIC slots [1..min(current, target)], the
    slots the VM had before any NIC was added, against the declared networks
    in declared order: each name is resolved (a generic name with the
    instance index, when one is given), the NIC is left alone if its backing
    is the resolved network, and otherwise its backing and summary are
    edited to it. *)
Theorem configure_nics_walks_existing_slots (vm : Obj) (networks_ : loc)
    (instance : option Z) (declared : list string) s :
  st_heap s !! networks_ = Some declared →
  ∃ n s1,
    reconcile_nic_count vm networks_
      (add_log (Log DEBUG "Editing NICs for VM '%s'" [LStr (name_of vm)]) s) = Ok n s1
    ∧ _configure_nics self vm networks_ instance s
      = walk_slots self vm declared instance
          (Nat.min (length (vm_network vm (st_server s))) (length declared)) s1.
Proof.
  intros Hheap.
  set (s0 := add_log (Log DEBUG "Editing NICs for VM '%s'" [LStr (name_of vm)]) s).
  destruct (reconcile_nic_count_heap vm networks_ declared s0 Hheap) as (s1 & Hrun & Hh).
  change (st_server s0) with (st_server s) in *.
  eexists _, s1. split; [exact Hrun|].
  unfold _configure_nics. munfold. simpl. fold s0. rewrite Hrun.
  unfold py_list. munfold. simpl. rewrite Hh.
  set (m := Nat.min _ _).
  apply edit_loop_walk. lia.
Qed.

(** ** Services outside the catalog *)

Lemma for_each_skip {A} (body : A → M unit) (k : State → State) (x : A)
    (pre post : list A) s :
  (∀ s', body x s' = Ok tt (k s')) →
  for_each body (pre ++ x :: post) s
  = (for_each body pre;; modify k;; for_each body post) s.
Proof.
  intros Hx. rewrite for_each_app. munfold.
  destruct (for_each body pre s) as [[] s'|e s']; [|done].
  rewrite for_each_cons. munfold. by rewrite Hx.
Qed.

Lemma is_vsphere_unknown (name : string) s :
  dict_get name (services self) = None →
  _is_vsphere self (VStr name) s
  = Ok false (add_log (Log ERROR "Could not find service %s in list of services"
                             [LVal (VStr name)]) s).
Proof. intros Hname. unfold _is_vsphere. rewrite Hname. done. Qed.

(** C10.  A service instance whose reference names no entry of the services
    catalog: [_is_vsphere] logs an error and returns [False], it does not
    raise; the loop of [_master_base_folder_gen] and [_deploy_gen_services]
    over the services of a folder leave it with two log records and nothing
    else, and go on with the services that follow. *)
Theorem unknown_service_is_skipped (name sname : string) (sconfig : list (string * value)) :
  dict_get name (services self) = None →
  dict_get "service" sconfig = Some (VStr name) →
  let skip := λ s,
    add_log (Log DEBUG "Skipping non-vsphere service '%s'" [LStr sname])
      (add_log (Log ERROR "Could not find service %s in list of services"
                  [LVal (VStr name)]) s) in
  (∀ s, _is_vsphere self (VStr name) s
        = Ok false (add_log (Log ERROR "Could not find service %s in list of services"
                               [LVal (VStr name)]) s))
  ∧ (∀ folder_name parent pre post s,
       for_each (master_service_gen self folder_name parent)
         (pre ++ (sname, VDict sconfig) :: post) s
       = (for_each (master_service_gen self folder_name parent) pre;;
          modify skip;;
          for_each (master_service_gen self folder_name parent) post) s)
  ∧ (∀ parent path instance pre post s,
       _deploy_gen_services self (VDict (pre ++ (sname, VDict sconfig) :: post))
         parent path instance s
       = (_deploy_gen_services self (VDict pre) parent path instance;;
          modify skip;;
          _deploy_gen_services self (VDict post) parent path instance) s).
Proof.
  intros Hname Hsref skip. split; [|split].
  - intros s. by apply is_vsphere_unknown.
  - intros folder_name parent pre post s. apply for_each_skip.
    intros s'. unfold master_service_gen, py_getitem. rewrite Hsref. munfold.
    rewrite is_vsphere_unknown by done. done.
  - intros parent path instance pre post s.
    change (_deploy_gen_services self (VDict (pre ++ (sname, VDict sconfig) :: post))
              parent path instance s)
      with (for_each (deploy_service_gen self parent path instance)
              (pre ++ (sname, VDict sconfig) :: post) s).
    apply for_each_skip.
    intros s'. unfold deploy_service_gen, py_getitem. rewrite Hsref. munfold.
    rewrite is_vsphere_unknown by done. done.
Qed.

(** ** The lookup table only grows *)

Lemma keeps_ret {A} (a : A) : keeps_net_table (mret a).
Proof. intros s. done. Qed.

Lemma keeps_raise {A} (e : exn) : keeps_net_table (raise (A:=A) e).
Proof. intros s. done. Qed.

Lemma keeps_gets {A} (f : State → A) : keeps_net_table (gets f).
Proof. intros s. done. Qed.

Lemma keeps_modify (f : State → State) :
  (∀ s, st_net_table (f s) = st_net_table s) → keeps_net_table (modify f).
Proof. intros Hf s. simpl. by rewrite Hf. Qed.

Lemma keeps_log (l : level) (fmt : string) (args : list log_arg) :
  keeps_net_table (log l fmt args).
Proof. by apply keeps_modify. Qed.

Lemma keeps_bind {A B} (m : M A) (k : A → M B) :
  keeps_net_table m → (∀ a, keeps_net_table (k a)) → keeps_net_table (m ≫= k).
Proof.
  intros Hm Hk s. specialize (Hm s). munfold.
  destruct (m s) as [a s'|e s']; simpl in *; [|done].
  etrans; [exact Hm|apply Hk].
Qed.

Lemma keeps_for_each {A} (body : A → M unit) (xs : list A) :
  Forall (λ x, keeps_net_table (body x)) xs → keeps_net_table (for_each body xs).
Proof.
  induction 1 as [|x xs Hx _ IH]; [apply keeps_ret|].
  cbn [for_each]. apply keeps_bind; [done|]. intros _. exact IH.
Qed.

Lemma keeps_for_each_all {A} (body : A → M unit) (xs : list A) :
  (∀ x, keeps_net_table (body x)) → keeps_net_table (for_each body xs).
Proof. intros Hbody. apply keeps_for_each, Forall_forall. auto. Qed.

Lemma keeps_get_net (name : string) (i : Z) : keeps_net_table (_get_net self name i).
Proof. intros s. apply get_net_table_grows. Qed.

Lemma keeps_create_folder (name : string) (parent : Obj) :
  keeps_net_table (do_create_folder name parent).
Proof. intros s. unfold do_create_folder. by destruct (create_folder _ _ _). Qed.

Lemma keeps_traverse_path (root : Obj) (path : string) :
  keeps_net_table (do_traverse_path root path).
Proof. intros s. done. Qed.

(** One step of a proof that a computation keeps the lookup table. *)
Ltac keeps_step :=
  lazymatch goal with
  | |- keeps_net_table (mbind _ _) => apply keeps_bind; [|intros ?]
  | |- keeps_net_table (mret _) => apply keeps_ret
  | |- keeps_net_table (raise _) => apply keeps_raise
  | |- keeps_net_table (gets _) => apply keeps_gets
  | |- keeps_net_table (log _ _ _) => apply keeps_log
  | |- keeps_net_table (modify _) => by apply keeps_modify
  | |- keeps_net_table (_get_net _ _ _) => apply keeps_get_net
  | |- keeps_net_table (do_create_folder _ _) => apply keeps_create_folder
  | |- keeps_net_table (do_traverse_path _ _) => apply keeps_traverse_path
  | |- keeps_net_table (for_each _ _) => apply keeps_for_each_all; intros ?
  | |- keeps_net_table (if ?b then _ else _) => destruct b
  | |- keeps_net_table (match ?x with _ => _ end) => destruct x
  | |- keeps_net_table (let (_, _) := ?x in _) => destruct x
  end.

Ltac keeps := repeat keeps_step.

Lemma keeps_py_contains (key : string) (v : value) : keeps_net_table (py_contains key v).
Proof. unfold py_contains. keeps. Qed.

Lemma keeps_py_getitem (v : value) (key : string) : keeps_net_table (py_getitem v key).
Proof. unfold py_getitem. keeps. Qed.

Lemma keeps_py_items (v : value) : keeps_net_table (py_items v).
Proof. unfold py_items. keeps. Qed.

Lemma keeps_py_bool (v : value) : keeps_net_table (py_bool v).
Proof. unfold py_bool. keeps. Qed.

Lemma keeps_py_int (v : value) : keeps_net_table (py_int v).
Proof. unfold py_int. keeps. Qed.

Lemma keeps_py_str (v : value) : keeps_net_table (py_str v).
Proof. unfold py_str. keeps. Qed.

Lemma keeps_is_enabled (spec : value) : keeps_net_table (_is_enabled spec).
Proof.
  unfold _is_enabled.
  keeps; auto using keeps_py_contains, keeps_py_getitem, keeps_py_bool.
Qed.

Lemma keeps_instances_handler (spec : value) (name : string) (kind : object_kind) :
  keeps_net_table (_instances_handler spec name kind).
Proof.
  unfold _instances_handler, self___name__.
  keeps; auto using keeps_py_contains, keeps_py_getitem, keeps_py_int, keeps_py_str.
Qed.

Lemma keeps_get_group (g : value) : keeps_net_table (_get_group self g).
Proof. unfold _get_group. keeps. Qed.

Lemma keeps_is_vsphere (v : value) : keeps_net_table (_is_vsphere self v).
Proof. unfold _is_vsphere. keeps. Qed.

Lemma keeps_py_list (l : loc) : keeps_net_table (py_list l).
Proof. unfold py_list. keeps. Qed.

Lemma keeps_reconcile_nic_count (vm : Obj) (l : loc) :
  keeps_net_table (reconcile_nic_count vm l).
Proof.
  unfold reconcile_nic_count, add_missing_nic, py_len, py_pop, do_delete_nic, do_has_tools,
    do_get_network, do_add_nic.
  keeps; auto using keeps_py_list.
Qed.

Lemma keeps_configure_nics (vm : Obj) (l : loc) (instance : option Z) :
  keeps_net_table (_configure_nics self vm l instance).
Proof.
  unfold _configure_nics, edit_interface, do_get_network, do_get_nic_by_id, do_edit_nic.
  keeps; auto using keeps_reconcile_nic_count, keeps_py_list.
Qed.

Lemma keeps_networks_of (sconfig : value) : keeps_net_table (networks_of sconfig).
Proof. unfold networks_of. keeps; auto using keeps_py_getitem. Qed.

Lemma keeps_clone_service (folder_ : Obj) (sref : value) :
  keeps_net_table (_clone_service self folder_ sref).
Proof.
  unfold _clone_service, do_clone_vm, do_set_note.
  keeps; auto using keeps_is_vsphere.
Qed.

Lemma keeps_master_base_folder_gen (name : string) (d : value) (parent : Obj) :
  keeps_net_table (_master_base_folder_gen self name d parent).
Proof.
  unfold _master_base_folder_gen, master_service_gen, do_create_snapshot.
  keeps; auto using keeps_py_contains, keeps_py_getitem, keeps_py_items, keeps_get_group,
    keeps_is_vsphere, keeps_clone_service, keeps_networks_of, keeps_configure_nics.
Qed.

Lemma keeps_deploy_gen_services (svcs : value) (parent : Obj) (path : string) (i : Z) :
  keeps_net_table (_deploy_gen_services self svcs parent path i).
Proof.
  unfold _deploy_gen_services, deploy_service_gen, do_clone_vm.
  keeps; auto using keeps_py_getitem, keeps_py_items, keeps_is_vsphere,
    keeps_instances_handler, keeps_networks_of, keeps_configure_nics.
Qed.

Lemma keeps_deploy_base_folder_gen (name : string) (d : value) (parent : Obj)
    (path : string) :
  keeps_net_table (_deploy_base_folder_gen self name d parent path).
Proof.
  unfold _deploy_base_folder_gen.
  keeps; auto using keeps_py_getitem, keeps_get_group, keeps_instances_handler,
    keeps_deploy_gen_services.
Qed.

(** Induction on a specification value, through the entries of its
    dictionaries. *)
Lemma value_nested_ind (P : value → Prop) :
  P VNone → (∀ b, P (VBool b)) → (∀ n, P (VInt n)) → (∀ x, P (VStr x)) →
  (∀ l, P (VList l)) →
  (∀ items, Forall (λ kv, P kv.2) items → P (VDict items)) →
  ∀ v, P v.
Proof.
  intros HNone HBool HInt HStr HList HDict.
  fix IH 1.
  intros [ |b|n|x|l|items];
    [apply HNone|apply HBool|apply HInt|apply HStr|apply HList|].
  apply HDict. revert items.
  fix IHitems 1. intros [|[k v] items]; constructor; [apply IH|apply IHitems].
Qed.

Lemma keeps_master_parent_folder_gen (folder_ : value) (parent : Obj) :
  keeps_net_table (_master_parent_folder_gen self folder_ parent).
Proof.
  revert parent. induction folder_ as [ | | | | |items IH] using value_nested_ind;
    intros parent; cbn [_master_parent_folder_gen].
  1-5: by (keeps; auto using keeps_is_enabled).
  apply keeps_bind; [apply keeps_is_enabled|]. intros [|]; [apply keeps_log|].
  apply keeps_for_each. eapply Forall_impl; [exact IH|].
  intros [sub_name sub_value] IHsub. simpl in IHsub.
  keeps; auto using keeps_get_group, keeps_py_contains, keeps_is_enabled,
    keeps_master_base_folder_gen.
Qed.

Lemma keeps_deploy_parent_folder_gen (spec : value) (parent : Obj) (path : string) :
  keeps_net_table (_deploy_parent_folder_gen self spec parent path).
Proof.
  revert parent path. induction spec as [ | | | | |items IH] using value_nested_ind;
    intros parent path; cbn [_deploy_parent_folder_gen].
  1-5: by (keeps; auto using keeps_is_enabled).
  apply keeps_bind; [apply keeps_is_enabled|]. intros [|]; simpl; [|apply keeps_log].
  apply keeps_for_each. eapply Forall_impl; [exact IH|].
  intros [sub_name sub_value] IHsub. simpl in IHsub.
  keeps; auto using keeps_get_group, keeps_py_contains, keeps_is_enabled,
    keeps_instances_handler, keeps_deploy_base_folder_gen.
Qed.

(** C7.  Resolving a generic network name twice with the same instance index
    gives the same concrete name both times; the first call issues at most
    one driver call, the creation of the portgroup of that name, and the
    second call issues none; the concrete name is in the lookup table after
    the first call, whether the network existed or was created; and
    neither [_get_net], the one method that writes the table, nor the
    Master walk nor the Deployment walk removes an entry of it. *)
Theorem get_net_generic_twice (name : string) (i : Z) s :
  NoDup (networks self).*1 →
  net_type_of self name = "generic-networks" →
  i ≠ -1 →
  let concrete := name +:+ "-GENERIC-" +:+ pad i in
  ∃ s1 s2,
    _get_net self name i s = Ok concrete s1
    ∧ _get_net self name i s1 = Ok concrete s2
    ∧ (st_calls s1 = st_calls s
       ∨ ∃ vlan vsw, st_calls s1 = st_calls s ++ [CCreatePortgroup concrete false vlan vsw])
    ∧ st_calls s2 = st_calls s1
    ∧ is_Some (st_net_table s1 !! concrete)
    ∧ st_net_table s ⊆ st_net_table s1
    ∧ st_net_table s1 ⊆ st_net_table s2
    ∧ (∀ name' i', keeps_net_table (_get_net self name' i'))
    ∧ (∀ folder_ parent, keeps_net_table (_master_parent_folder_gen self folder_ parent))
    ∧ (∀ spec parent path,
         keeps_net_table (_deploy_parent_folder_gen self spec parent path)).
Proof.
  intros Hnd Hty Hi concrete.
  destruct (generic_config name Hnd Hty) as (g & c & Hg & Hc).
  assert (Hfirst : ∃ s1, _get_net self name i s = Ok concrete s1
            ∧ (st_calls s1 = st_calls s
               ∨ ∃ vlan vsw,
                   st_calls s1 = st_calls s ++ [CCreatePortgroup concrete false vlan vsw])
            ∧ is_Some (st_net_table s1 !! concrete)).
  { unfold _get_net. munfold.
    destruct (determine_net_type_value name s) as (s' & -> & _ & _ & _ & _ & _ & Hs').
    rewrite Hs' by (rewrite Hty; done). clear Hs' s'.
    rewrite Hty. simpl. rewrite decide_False by done. simpl.
    fold concrete.
    destruct (st_net_table s !! concrete) eqn:Hlook; simpl.
    { eexists. split; [done|]. split; [by left|]. rewrite Hlook. eauto. }
    unfold do_get_network, do_create_portgroup, next. munfold. simpl.
    destruct (get_network concrete (st_server s)); simpl.
    { eexists. split; [done|]. simpl. split; [by left|].
      rewrite lookup_insert_eq. eauto. }
    rewrite Hg, Hc. simpl.
    eexists. split; [done|]. simpl. split; [right; eauto|].
    rewrite lookup_insert_eq. eauto. }
  destruct Hfirst as (s1 & Hrun1 & Hcalls1 & Htab1).
  assert (Hsecond : _get_net self name i s1 = Ok concrete s1).
  { unfold _get_net. munfold.
    destruct (determine_net_type_value name s1) as (s' & -> & _ & _ & _ & _ & _ & Hs').
    rewrite Hs' by (rewrite Hty; done). clear Hs' s'.
    rewrite Hty. simpl. rewrite decide_False by done. simpl.
    fold concrete. destruct Htab1 as [b ->]. done. }
  exists s1, s1. split; [done|]. split; [done|]. split; [done|]. split; [done|].
  split; [done|]. split.
  { pose proof (get_net_table_grows name i s) as Hgrow. by rewrite Hrun1 in Hgrow. }
  split; [done|].
  auto using keeps_get_net, keeps_master_parent_folder_gen, keeps_deploy_parent_folder_gen.
Qed.

(** ** The Master walk and the [enabled] key *)

Lemma is_enabled_default items s :
  dict_get "enabled" items = None → _is_enabled (VDict items) s = Ok true s.
Proof.
  intros Hget. unfold _is_enabled. munfold. simpl.
  rewrite bool_decide_eq_false_2 by (eapply dict_get_None_not_elem, Hget). done.
Qed.

(** A node without an [enabled] key is enabled, and the Master walk leaves
    it at once: it logs that it skips a disabled folder and creates
    nothing. *)
Lemma master_walk_leaves_enabled_node items (parent : Obj) s :
  dict_get "enabled" items = None →
  _master_parent_folder_gen self (VDict items) parent s
  = Ok tt (add_log (Log WARNING "Skipping disabled parent-type folder %s"
                      [LStr (name_of parent)]) s).
Proof.
  intros Hget. cbn [_master_parent_folder_gen]. munfold.
  rewrite is_enabled_default by done. done.
Qed.

End Properties.

(** * Further properties of the interface *)

Section MoreProperties.
Context `{Hypervisor} (self : VsphereInterface).

Implicit Types (s : State) (items : list (string * value)).

(** ** Network classification and resolution *)

(** X5.  [_determine_net_type] returns the first category of the catalog
    that declares the name: the name is declared in the category it returns
    and in no category before it.  It logs its error and returns the empty
    string exactly when no category declares the name.  It does nothing
    else. *)
Theorem determine_net_type_first_category (name : string) s :
  match List.find (λ kv, bool_decide (name ∈ kv.2.*1)) (networks self) with
  | Some (cat, g) =>
      _determine_net_type self name s = Ok cat s
      ∧ name ∈ g.*1
      ∧ ∃ before after, networks self = before ++ (cat, g) :: after
                        ∧ Forall (λ kv, name ∉ kv.2.*1) before
  | None =>
      _determine_net_type self name s
      = Ok "" (add_log (Log ERROR "Could not find type for network '%s'" [LStr name]) s)
      ∧ Forall (λ kv, name ∉ kv.2.*1) (networks self)
  end.
Proof.
  unfold _determine_net_type.
  destruct (List.find _ _) as [[cat g]|] eqn:Hfind.
  - split; [done|].
    pose proof Hfind as Hsome. apply find_some in Hsome as [_ Hname].
    apply bool_decide_eq_true_1 in Hname. simpl in Hname. split; [done|].
    clear Hname. induction (networks self) as [|[k v] l IH]; [done|].
    simpl in Hfind. case_bool_decide as Hk; simpl in *.
    + injection Hfind as -> ->. exists [], l. by split.
    + destruct (IH Hfind) as (before & after & -> & Hbefore).
      exists ((k, v) :: before), after. split; [done|]. by constructor.
  - split; [done|]. apply Forall_forall. intros kv Hin.
    apply list_elem_of_In in Hin.
    pose proof (find_none _ _ Hfind kv Hin) as Hkv.
    by apply bool_decide_eq_false_1 in Hkv.
Qed.

(** X1.  A name classified as a unique network resolves to itself whatever
    the instance index, the missing one [-1] included, and the call leaves
    every part of the state as it is: no log record, no driver call, no
    entry in the lookup table. *)
Theorem get_net_unique_is_identity (name : string) (i : Z) s :
  net_type_of self name = "unique-networks" →
  _get_net self name i s = Ok name s.
Proof.
  intros Hty. unfold _get_net. munfold.
  destruct (determine_net_type_value self name s) as (s' & -> & _ & _ & _ & _ & _ & Hs').
  rewrite Hs' by (rewrite Hty; done). rewrite Hty. done.
Qed.

(** X2.  A generic network name resolved without an instance index (the
    default [-1]) raises [ValueError]; before that the call logs one error
    and does nothing else. *)
Theorem get_net_generic_needs_instance (name : string) s :
  net_type_of self name = "generic-networks" →
  _get_net self name (-1) s
  = Raise ValueError (add_log (Log ERROR "Invalid instance for _get_net: %d" [LInt (-1)]) s).
Proof.
  intros Hty. unfold _get_net. munfold.
  destruct (determine_net_type_value self name s) as (s' & -> & _ & _ & _ & _ & _ & Hs').
  rewrite Hs' by (rewrite Hty; done). rewrite Hty. done.
Qed.

(** X3.  A name that is in neither [unique-networks] nor [generic-networks]
    (a [base-networks] name, or one the catalog lacks) makes [_get_net]
    raise [TypeError], for every instance index; the hypervisor, the lookup
    table and the specification are as before. *)
Theorem get_net_other_category_raises (name : string) (i : Z) s :
  net_type_of self name ≠ "unique-networks" →
  net_type_of self name ≠ "generic-networks" →
  ∃ s', _get_net self name i s = Raise TypeError s'
        ∧ untouched s s' ∧ st_net_table s' = st_net_table s
        ∧ st_lookups s' = st_lookups s.
Proof.
  intros Hu Hg. unfold _get_net. munfold.
  destruct (determine_net_type_value self name s)
    as (s' & -> & Hsrv & Hheap & Htab & Hcalls & Hlook & _).
  rewrite decide_False by done. rewrite decide_False by done. simpl.
  eexists. split; [done|]. simpl. done.
Qed.

(** X4.  The first resolution of a generic name whose network is neither in
    the lookup table nor on the host creates it with exactly one driver
    call: a portgroup of the resolved name, not promiscuous, with VLAN 2000
    (the first value of a new [_get_vlan] generator) on the vswitch of the
    network's configuration or, without one, the interface's default; the
    name is then put in the lookup table. *)
Theorem get_net_creates_missing_generic (name : string) (i : Z)
    (g : list (string * net_config)) (c : net_config) s :
  net_type_of self name = "generic-networks" →
  i ≠ -1 →
  dict_get "generic-networks" (networks self) = Some g →
  dict_get name g = Some c →
  let concrete := name +:+ "-GENERIC-" +:+ pad i in
  let vsw := default (vswitch_name self) (nc_vswitch c) in
  st_net_table s !! concrete = None →
  get_network concrete (st_server s) = None →
  ∃ s', _get_net self name i s = Ok concrete s'
        ∧ st_calls s' = st_calls s ++ [CCreatePortgroup concrete false 2000 vsw]
        ∧ st_server s' = create_portgroup concrete false 2000 vsw (st_server s)
        ∧ st_net_table s' = <[concrete := true]> (st_net_table s)
        ∧ st_heap s' = st_heap s.
Proof.
  intros Hty Hi Hg Hc concrete vsw Htab Hnet. unfold _get_net. munfold.
  destruct (determine_net_type_value self name s) as (s' & -> & _ & _ & _ & _ & _ & Hs').
  rewrite Hs' by (rewrite Hty; done). clear Hs' s'.
  rewrite Hty. simpl. rewrite decide_False by done. simpl.
  fold concrete. rewrite Htab. simpl.
  unfold do_get_network, do_create_portgroup, next. munfold. simpl.
  rewrite Hnet. simpl. rewrite Hg, Hc. simpl.
  eexists. split; [done|]. done.
Qed.

(** ** Relations a computation preserves *)

Local Instance logged_only_preorder : PreOrder logged_only.
Proof.
  split; [done|].
  intros s1 s2 s3 ((Hs & Hc & Hh) & Ht & Hl) ((Hs' & Hc' & Hh') & Ht' & Hl').
  unfold logged_only, untouched. rewrite Hs', Hc', Hh', Ht', Hl'. done.
Qed.

Local Instance calls_added_preorder (P : call → Prop) : PreOrder (calls_added P).
Proof.
  split.
  - intros s. exists []. by rewrite app_nil_r.
  - intros s1 s2 s3 (new & Hc & Hnew) (new' & Hc' & Hnew').
    exists (new ++ new'). rewrite Hc', Hc, <- app_assoc. split; [done|].
    by apply Forall_app.
Qed.

Local Instance lists_shortened_preorder : PreOrder lists_shortened.
Proof.
  split.
  - intros s l. destruct (st_heap s !! l); by constructor.
  - intros s1 s2 s3 H12 H23 l. specialize (H12 l). specialize (H23 l).
    destruct H23 as [x3 x2 H32|]; inversion H12 as [? x1 H21|]; subst; constructor.
    by etrans.
Qed.

Local Instance table_kept_preorder : PreOrder table_kept.
Proof. split; [done|]. intros s1 s2 s3 H12 H23. unfold table_kept in *. congruence. Qed.

Section preserves.
Context (R : relation State) `{!PreOrder R}.

Lemma preserves_ret {A} (a : A) : preserves R (mret a).
Proof. intros s. simpl. reflexivity. Qed.

Lemma preserves_raise {A} (e : exn) : preserves R (raise (A:=A) e).
Proof. intros s. simpl. reflexivity. Qed.

Lemma preserves_gets {A} (f : State → A) : preserves R (gets f).
Proof. intros s. simpl. reflexivity. Qed.

Lemma preserves_modify (f : State → State) : (∀ s, R s (f s)) → preserves R (modify f).
Proof. intros Hf s. apply Hf. Qed.

Lemma preserves_bind {A B} (m : M A) (k : A → M B) :
  preserves R m → (∀ a, preserves R (k a)) → preserves R (m ≫= k).
Proof.
  intros Hm Hk s. specialize (Hm s). munfold.
  destruct (m s) as [a s'|e s']; simpl in *; [|done].
  etrans; [exact Hm|apply Hk].
Qed.

Lemma preserves_for_each {A} (body : A → M unit) (xs : list A) :
  Forall (λ x, preserves R (body x)) xs → preserves R (for_each body xs).
Proof.
  induction 1 as [|x xs Hx _ IH]; [apply preserves_ret|].
  cbn [for_each]. apply preserves_bind; [done|]. intros _. exact IH.
Qed.

Lemma preserves_for_each_all {A} (body : A → M unit) (xs : list A) :
  (∀ x, preserves R (body x)) → preserves R (for_each body xs).
Proof. intros Hbody. apply preserves_for_each, Forall_forall. auto. Qed.

Lemma preserves_create_folder (name : string) (parent : Obj) :
  (∀ srv s, R s (add_call (CCreateFolder name parent) (set_server srv s))) →
  preserves R (do_create_folder name parent).
Proof. intros HR s. unfold do_create_folder. destruct (create_folder _ _ _). apply HR. Qed.

Lemma preserves_traverse_path (root : Obj) (path : string) :
  (∀ s, R s (add_lookup (root, path) s)) → preserves R (do_traverse_path root path).
Proof. intros HR s. apply HR. Qed.
End preserves.

Lemma preserves_weaken {A} (R R' : relation State) (m : M A) :
  (∀ s s', R s s' → R' s s') → preserves R m → preserves R' m.
Proof. intros HR Hm s. apply HR, Hm. Qed.

Lemma logged_only_calls_added (P : call → Prop) s s' : logged_only s s' → calls_added P s s'.
Proof. intros ((_ & Hc & _) & _). exists []. by rewrite app_nil_r. Qed.

Lemma logged_only_lists_shortened s s' : logged_only s s' → lists_shortened s s'.
Proof. intros ((_ & _ & Hh) & _) l. rewrite Hh. destruct (st_heap s !! l); by constructor. Qed.

Lemma logged_only_table_kept s s' : logged_only s s' → table_kept s s'.
Proof. by intros (_ & Ht & _). Qed.

(** One step of a proof that a computation preserves a relation; [atom]
    settles a single change of the state. *)
Ltac preserves_step atom :=
  lazymatch goal with
  | |- preserves _ (mbind _ _) => apply preserves_bind; [try tc_solve| |intros ?]
  | |- preserves _ (mret _) => apply preserves_ret; tc_solve
  | |- preserves _ (raise _) => apply preserves_raise; tc_solve
  | |- preserves _ (gets _) => apply preserves_gets; tc_solve
  | |- preserves _ (log _ _ _) => apply preserves_modify; intros ?; atom
  | |- preserves _ (modify _) => apply preserves_modify; intros ?; atom
  | |- preserves _ (do_create_folder _ _) =>
      apply preserves_create_folder; intros ? ?; atom
  | |- preserves _ (do_traverse_path _ _) =>
      apply preserves_traverse_path; intros ?; atom
  | |- preserves _ (for_each _ _) => apply preserves_for_each_all; [try tc_solve|intros ?]
  | |- preserves _ (if ?b then _ else _) => destruct b
  | |- preserves _ (match ?x with _ => _ end) => destruct x
  | |- preserves _ (let (_, _) := ?x in _) => destruct x
  end.

(** A single change of the state, for each relation. *)
Ltac logged_atom := by repeat split.
Ltac calls_atom :=
  simpl;
  first [ by exists []; rewrite app_nil_r
        | by eexists [_]; split; [reflexivity|repeat constructor] ].
Ltac table_atom := done.

Lemma logs_py_contains (key : string) (v : value) : preserves logged_only (py_contains key v).
Proof. unfold py_contains. repeat preserves_step logged_atom. Qed.

Lemma logs_py_getitem (v : value) (key : string) : preserves logged_only (py_getitem v key).
Proof. unfold py_getitem. repeat preserves_step logged_atom. Qed.

Lemma logs_py_items (v : value) : preserves logged_only (py_items v).
Proof. unfold py_items. repeat preserves_step logged_atom. Qed.

Lemma logs_py_bool (v : value) : preserves logged_only (py_bool v).
Proof. unfold py_bool. repeat preserves_step logged_atom. Qed.

Lemma logs_py_int (v : value) : preserves logged_only (py_int v).
Proof. unfold py_int. repeat preserves_step logged_atom. Qed.

Lemma logs_py_str (v : value) : preserves logged_only (py_str v).
Proof. unfold py_str. repeat preserves_step logged_atom. Qed.

Lemma logs_py_list (l : loc) : preserves logged_only (py_list l).
Proof. unfold py_list. repeat preserves_step logged_atom. Qed.

Lemma logs_is_enabled (spec : value) : preserves logged_only (_is_enabled spec).
Proof.
  unfold _is_enabled.
  repeat preserves_step logged_atom; auto using logs_py_contains, logs_py_getitem, logs_py_bool.
Qed.

Lemma logs_instances_handler (spec : value) (name : string) (kind : object_kind) :
  preserves logged_only (_instances_handler spec name kind).
Proof.
  unfold _instances_handler, self___name__.
  repeat preserves_step logged_atom;
    auto using logs_py_contains, logs_py_getitem, logs_py_int, logs_py_str.
Qed.

Lemma logs_get_group (g : value) : preserves logged_only (_get_group self g).
Proof. unfold _get_group. repeat preserves_step logged_atom. Qed.

Lemma logs_is_vsphere (v : value) : preserves logged_only (_is_vsphere self v).
Proof. unfold _is_vsphere. repeat preserves_step logged_atom. Qed.

Lemma logs_determine_net_type (name : string) :
  preserves logged_only (_determine_net_type self name).
Proof. unfold _determine_net_type. repeat preserves_step logged_atom. Qed.

Lemma logs_networks_of (sconfig : value) : preserves logged_only (networks_of sconfig).
Proof.
  unfold networks_of. repeat preserves_step logged_atom; auto using logs_py_getitem.
Qed.

(** ** What the walks can change

    The lemmas of this section hold for every relation [R] on states that is
    kept by logging, by a path lookup, by a driver call of a permitted kind
    and by the removal of the last name of a list of the specification; the
    Deployment part needs [R] kept by a new entry of the lookup table as
    well. *)
Section frames.
Context (R : relation State) `{!PreOrder R} (Pcall : call → Prop).
Hypothesis Hlog : ∀ s s', logged_only s s' → R s s'.
Hypothesis Hlookup : ∀ q s, R s (add_lookup q s).
Hypothesis Hcall : ∀ c srv s, Pcall c → R s (add_call c (set_server srv s)).
Hypothesis Hpop : ∀ s l xs,
  st_heap s !! l = Some xs →
  R s (set_heap (<[l := take (pred (length xs)) xs]> (st_heap s)) s).

Ltac frame_atom :=
  first [ by apply Hlog
        | apply Hlookup
        | apply Hcall;
          first [ done
                | match goal with HP : ∀ c, _ → Pcall c |- _ => by apply HP end
                | match goal with HP : ∀ _ _, Pcall _ |- _ => apply HP end ] ].

Ltac frame := repeat preserves_step frame_atom.

Lemma frame_logged {A} (m : M A) : preserves logged_only m → preserves R m.
Proof. apply preserves_weaken, Hlog. Qed.

Lemma frame_py_pop (l : loc) : preserves R (py_pop l).
Proof.
  intros s. unfold py_pop, py_list. munfold. simpl.
  destruct (st_heap s !! l) as [xs|] eqn:Hl; simpl; [|reflexivity].
  destruct (last xs); simpl; [|reflexivity]. by apply Hpop.
Qed.

Lemma frame_reconcile_nic_count (vm : Obj) (l : loc) :
  (∀ c, is_nic_change c → Pcall c) → preserves R (reconcile_nic_count vm l).
Proof.
  intros HP.
  unfold reconcile_nic_count, add_missing_nic, py_len, do_delete_nic, do_has_tools,
    do_get_network, do_add_nic.
  frame; auto using frame_py_pop, frame_logged, logs_py_list.
Qed.

Lemma frame_edit_interface (vm : Obj) (instance : option Z) (name : string) (i : Z) :
  (∀ c, is_nic_change c → Pcall c) →
  (∀ n j, preserves R (_get_net self n j)) →
  preserves R (edit_interface self vm instance name i).
Proof.
  intros HP Hnet. unfold edit_interface, do_get_network, do_get_nic_by_id, do_edit_nic.
  frame; auto.
Qed.

Lemma frame_configure_nics (vm : Obj) (l : loc) (instance : option Z) :
  (∀ c, is_nic_change c → Pcall c) →
  (∀ n j, instance ≠ None → preserves R (_get_net self n j)) →
  preserves R (_configure_nics self vm l instance).
Proof.
  intros HP Hnet. unfold _configure_nics, edit_interface, do_get_network,
    do_get_nic_by_id, do_edit_nic.
  frame; auto using frame_reconcile_nic_count, frame_logged, logs_py_list.
Qed.

Lemma frame_clone_service (folder_ : Obj) (sref : value) :
  (∀ c, is_clone_vm c || is_set_note c → Pcall c) →
  preserves R (_clone_service self folder_ sref).
Proof.
  intros HP. unfold _clone_service, do_clone_vm, do_set_note.
  frame; auto using frame_logged, logs_is_vsphere.
Qed.

Lemma frame_master_base_folder_gen (name : string) (d : value) (parent : Obj) :
  (∀ c, is_master_call c → Pcall c) →
  preserves R (_master_base_folder_gen self name d parent).
Proof.
  intros HP.
  assert (HP1 : ∀ c, is_nic_change c → Pcall c).
  { intros c Hc. apply HP. unfold is_master_call. destruct c; naive_solver. }
  assert (HP2 : ∀ c, is_clone_vm c || is_set_note c → Pcall c).
  { intros c Hc. apply HP. unfold is_master_call. destruct c; naive_solver. }
  unfold _master_base_folder_gen, master_service_gen, do_create_snapshot.
  frame;
    auto using frame_logged, logs_py_contains, logs_py_getitem, logs_py_items,
      logs_get_group, logs_is_vsphere, logs_networks_of, frame_clone_service.
  apply frame_configure_nics; [done|]. intros n j Hnone. done.
Qed.

Lemma frame_master_parent_folder_gen (folder_ : value) (parent : Obj) :
  (∀ c, is_master_call c → Pcall c) →
  preserves R (_master_parent_folder_gen self folder_ parent).
Proof.
  intros HP. revert parent.
  induction folder_ as [ | | | | |items IH] using value_nested_ind;
    intros parent; cbn [_master_parent_folder_gen].
  1-5: by (frame; auto using frame_logged, logs_is_enabled).
  apply preserves_bind; [done|apply frame_logged, logs_is_enabled|].
  intros [|]; [frame|].
  apply preserves_for_each; [done|]. eapply Forall_impl; [exact IH|].
  intros [sub_name sub_value] IHsub. simpl in IHsub.
  frame;
    auto using frame_logged, logs_get_group, logs_py_contains, logs_is_enabled,
      frame_master_base_folder_gen.
Qed.

(** The Deployment part. *)
Hypothesis Htable : ∀ s k,
  st_net_table s !! k = None → R s (set_net_table (<[k := true]> (st_net_table s)) s).

Lemma frame_get_net (name : string) (i : Z) :
  (∀ c, is_create_portgroup c → Pcall c) → preserves R (_get_net self name i).
Proof.
  intros HP s. unfold _get_net. munfold.
  pose proof (logs_determine_net_type name s) as Hdet.
  destruct (_determine_net_type self name s) as [ty s1|e s1]; simpl in *;
    [|by apply Hlog].
  assert (R s s1) as Hs1 by (by apply Hlog). clear Hdet.
  destruct (decide (ty = "unique-networks")); [done|].
  destruct (decide (ty = "generic-networks")); cycle 1.
  { simpl. etrans; [exact Hs1|]. by apply Hlog. }
  destruct (decide (i = -1)).
  { simpl. etrans; [exact Hs1|]. by apply Hlog. }
  simpl. destruct (st_net_table s1 !! _) eqn:Htab; simpl; [done|].
  unfold do_get_network, do_create_portgroup, next. munfold. simpl.
  etrans; [exact Hs1|].
  destruct (get_network _ _); simpl.
  { match goal with |- R _ (set_net_table _ ?s2) =>
      trans s2; [by apply Hlog|apply (Htable s2); exact Htab]
    end. }
  destruct (dict_get "generic-networks" _); simpl; [|by apply Hlog].
  destruct (dict_get name _); simpl; [|by apply Hlog].
  match goal with |- R _ (set_net_table _ ?s2) =>
    trans s2; [|apply (Htable s2); exact Htab]
  end.
  match goal with |- R _ (add_call _ (set_server _ ?s3)) =>
    trans s3; [by apply Hlog|apply Hcall, HP; done]
  end.
Qed.

Lemma frame_deploy_gen_services (svcs : value) (parent : Obj) (path : string) (i : Z) :
  (∀ c, is_nic_change c → Pcall c) →
  (∀ c, is_create_portgroup c → Pcall c) →
  (∀ vm name, Pcall (CCloneVm vm parent name)) →
  preserves R (_deploy_gen_services self svcs parent path i).
Proof.
  intros HP1 HP2 HP3.
  unfold _deploy_gen_services, deploy_service_gen, do_clone_vm.
  frame;
    auto using frame_logged, logs_py_getitem, logs_py_items, logs_is_vsphere,
      logs_instances_handler, logs_networks_of.
  apply frame_configure_nics; [done|]. intros n j _. by apply frame_get_net.
Qed.

Lemma deploy_call_nic (c : call) :
  (∀ c, is_deploy_call c → Pcall c) → is_nic_change c → Pcall c.
Proof. intros HP Hc. apply HP. unfold is_deploy_call. destruct c; naive_solver. Qed.

Lemma deploy_call_portgroup (c : call) :
  (∀ c, is_deploy_call c → Pcall c) → is_create_portgroup c → Pcall c.
Proof. intros HP Hc. apply HP. unfold is_deploy_call. destruct c; naive_solver. Qed.

Lemma frame_deploy_base_folder_gen (name : string) (d : value) (parent : Obj)
    (path : string) :
  (∀ c, is_deploy_call c → Pcall c) →
  preserves R (_deploy_base_folder_gen self name d parent path).
Proof.
  intros HP. unfold _deploy_base_folder_gen.
  frame;
    auto using frame_logged, logs_py_getitem, logs_get_group, logs_instances_handler.
  all: apply frame_deploy_gen_services;
    [intros c; by apply deploy_call_nic
    |intros c; by apply deploy_call_portgroup
    |intros vm nm; by apply HP].
Qed.

Lemma frame_deploy_parent_folder_gen (spec : value) (parent : Obj) (path : string) :
  (∀ c, is_deploy_call c → Pcall c) →
  preserves R (_deploy_parent_folder_gen self spec parent path).
Proof.
  intros HP. revert parent path.
  induction spec as [ | | | | |items IH] using value_nested_ind;
    intros parent path; cbn [_deploy_parent_folder_gen].
  1-5: by (frame; auto using frame_logged, logs_is_enabled).
  apply preserves_bind; [done|apply frame_logged, logs_is_enabled|].
  intros [|]; simpl; [|frame].
  apply preserves_for_each; [done|]. eapply Forall_impl; [exact IH|].
  intros [sub_name sub_value] IHsub. simpl in IHsub.
  frame;
    auto using frame_logged, logs_get_group, logs_py_contains, logs_is_enabled,
      logs_instances_handler, frame_deploy_base_folder_gen.
Qed.
End frames.

Lemma calls_added_lookup (P : call → Prop) (q : Obj * string) s :
  calls_added P s (add_lookup q s).
Proof. exists []. by rewrite app_nil_r. Qed.

Lemma calls_added_call (P : call → Prop) (c : call) (srv : Server) s :
  P c → calls_added P s (add_call c (set_server srv s)).
Proof. intros Hc. exists [c]. split; [done|]. by repeat constructor. Qed.

Lemma calls_added_heap (P : call → Prop) (h : gmap loc (list string)) s :
  calls_added P s (set_heap h s).
Proof. exists []. by rewrite app_nil_r. Qed.

Lemma calls_added_table (P : call → Prop) (t : gmap string bool) s :
  calls_added P s (set_net_table t s).
Proof. exists []. by rewrite app_nil_r. Qed.

Lemma calls_added_heap' (P : call → Prop) s (l : loc) (xs : list string) :
  st_heap s !! l = Some xs →
  calls_added P s (set_heap (<[l := take (pred (length xs)) xs]> (st_heap s)) s).
Proof. intros _. apply calls_added_heap. Qed.

Lemma calls_added_table' (P : call → Prop) s (k : string) :
  st_net_table s !! k = None →
  calls_added P s (set_net_table (<[k := true]> (st_net_table s)) s).
Proof. intros _. apply calls_added_table. Qed.

Lemma lists_shortened_same s s' : st_heap s' = st_heap s → lists_shortened s s'.
Proof. intros Hh l. rewrite Hh. destruct (st_heap s !! l); by constructor. Qed.

Lemma lists_shortened_pop s (l : loc) (xs : list string) :
  st_heap s !! l = Some xs →
  lists_shortened s (set_heap (<[l := take (pred (length xs)) xs]> (st_heap s)) s).
Proof.
  intros Hl l'. simpl. destruct (decide (l = l')) as [<-|Hne].
  - rewrite lookup_insert_eq, Hl. constructor. apply prefix_take.
  - rewrite lookup_insert_ne by done. destruct (st_heap s !! l'); by constructor.
Qed.

(** ** What NIC reconciliation and the walks never do *)

(** X17.  In Master generation, where [_configure_nics] is given no
    instance index, it issues no driver call other than the addition,
    deletion or edition of a NIC (it creates no network) and leaves the
    lookup table as it is, whatever the VM and the declared list. *)
Theorem configure_nics_master_mode_frame (vm : Obj) (l : loc) :
  preserves (calls_added is_nic_change) (_configure_nics self vm l None)
  ∧ preserves table_kept (_configure_nics self vm l None).
Proof.
  split.
  - apply (frame_configure_nics (calls_added is_nic_change) is_nic_change);
      auto using logged_only_calls_added, calls_added_lookup, calls_added_call,
        calls_added_heap.
    done.
  - apply (frame_configure_nics table_kept (λ _, True)); try done.
    intros s s' Hs. by apply logged_only_table_kept.
Qed.

(** X18.  Below the Master folder, Master generation issues only folder
    creations, clones, notes, NIC changes and snapshots: it never creates a
    portgroup and never refreshes the network system, and it leaves the
    lookup table as it is, whatever the specification. *)
Theorem master_walk_frame (folder_ : value) (parent : Obj) :
  preserves (calls_added is_master_call) (_master_parent_folder_gen self folder_ parent)
  ∧ preserves table_kept (_master_parent_folder_gen self folder_ parent).
Proof.
  split.
  - apply (frame_master_parent_folder_gen (calls_added is_master_call) is_master_call);
      auto using logged_only_calls_added, calls_added_lookup, calls_added_call,
        calls_added_heap.
  - apply (frame_master_parent_folder_gen table_kept (λ _, True)); try done.
    intros s s' Hs. by apply logged_only_table_kept.
Qed.

(** X19.  Deployment issues only folder creations, clones, NIC changes and
    portgroup creations: it never takes a snapshot, sets a note or refreshes
    the network system, whatever the specification. *)
Theorem deploy_walk_frame (spec : value) (parent : Obj) (path : string) :
  preserves (calls_added is_deploy_call) (_deploy_parent_folder_gen self spec parent path).
Proof.
  apply (frame_deploy_parent_folder_gen (calls_added is_deploy_call) is_deploy_call);
    auto using logged_only_calls_added, calls_added_lookup, calls_added_call,
      calls_added_heap, calls_added_table.
Qed.

(** X20.  All that NIC reconciliation and the two walks change in the
    loaded specification is the end of its lists of networks: after any of
    them the specification has the same list objects, and each is a prefix
    of what it was. *)
Theorem specification_lists_only_shorten :
  (∀ vm l instance, preserves lists_shortened (_configure_nics self vm l instance))
  ∧ (∀ folder_ parent,
       preserves lists_shortened (_master_parent_folder_gen self folder_ parent))
  ∧ (∀ spec parent path,
       preserves lists_shortened (_deploy_parent_folder_gen self spec parent path)).
Proof.
  assert (Hlog : ∀ s s', logged_only s s' → lists_shortened s s')
    by apply logged_only_lists_shortened.
  assert (Hlookup : ∀ (q : Obj * string) s, lists_shortened s (add_lookup q s))
    by (intros; by apply lists_shortened_same).
  assert (Hcall : ∀ (c : call) (srv : Server) s,
            True → lists_shortened s (add_call c (set_server srv s)))
    by (intros; by apply lists_shortened_same).
  assert (Htable : ∀ s (k : string), st_net_table s !! k = None →
            lists_shortened s (set_net_table (<[k := true]> (st_net_table s)) s))
    by (intros; by apply lists_shortened_same).
  split; [|split].
  - intros vm l instance.
    apply (frame_configure_nics lists_shortened (λ _, True));
      auto using lists_shortened_pop.
    intros n j _. apply (frame_get_net lists_shortened (λ _, True)); auto.
  - intros folder_ parent.
    apply (frame_master_parent_folder_gen lists_shortened (λ _, True));
      auto using lists_shortened_pop.
  - intros spec parent path.
    apply (frame_deploy_parent_folder_gen lists_shortened (λ _, True));
      auto using lists_shortened_pop.
Qed.

(** X22.  Deployment honours [enabled: false] on the node it is called on:
    it logs that it skips the folder and returns, with no driver call and no
    lookup. *)
Theorem deploy_walk_skips_disabled_node items (parent : Obj) (path : string) s :
  dict_get "enabled" items = Some (VBool false) →
  _deploy_parent_folder_gen self (VDict items) parent path s
  = Ok tt (add_log (Log WARNING "Skipping disabled parent-type folder %s"
                      [LStr (name_of parent)]) s).
Proof.
  intros Hget. cbn [_deploy_parent_folder_gen]. unfold _is_enabled. munfold. simpl.
  rewrite bool_decide_eq_true_2 by (eapply dict_get_Some_elem, Hget).
  rewrite Hget. done.
Qed.


(** ** Master networks *)

Lemma create_master_networks_adds (net_type : string) (default_create : bool) :
  preserves (calls_added (is_master_network_call self net_type default_create))
    (_create_master_networks self net_type default_create).
Proof.
  set (P := is_master_network_call self net_type default_create).
  intros s. unfold _create_master_networks, do_refresh_network_system. munfold. simpl.
  match goal with |- context [add_log ?e (add_call ?c ?s1)] =>
    set (s0 := add_log e (add_call c s1))
  end.
  assert (Hs0 : calls_added P s s0).
  { exists [CRefreshNetworkSystem]. split; [done|]. by repeat constructor. }
  destruct (dict_get net_type (networks self)) as [nets|] eqn:Hnets; simpl; [|exact Hs0].
  etrans; [exact Hs0|]. clearbody s0. clear Hs0.
  refine (preserves_for_each (calls_added P) _ nets _ s0).
  apply Forall_forall. intros [name config] Hin s1. munfold. unfold do_get_network. simpl.
  destruct (get_network name (st_server s1)); simpl.
  { exists []. by rewrite app_nil_r. }
  destruct default_create; simpl; cycle 1.
  { exists []. by rewrite app_nil_r. }
  eexists [_]. split; [reflexivity|]. constructor; [|constructor].
  split; [done|]. split; [done|]. exists nets, config. done.
Qed.

Lemma create_master_networks_table (net_type : string) (default_create : bool) :
  preserves table_kept (_create_master_networks self net_type default_create).
Proof.
  unfold _create_master_networks, do_refresh_network_system, do_get_network,
    do_create_portgroup, next.
  repeat preserves_step table_atom.
Qed.


(** ** Cloning a service *)

Lemma is_vsphere_with_template (name : string) (config : service_def) (tpl : string) s :
  dict_get name (services self) = Some config →
  sd_template config = Some tpl →
  _is_vsphere self (VStr name) s = Ok true s.
Proof. intros Hname Htpl. unfold _is_vsphere. rewrite Hname, Htpl. done. Qed.

Lemma is_vsphere_without_template (name : string) (config : service_def) s :
  dict_get name (services self) = Some config →
  sd_template config = None →
  _is_vsphere self (VStr name) s = Ok false s.
Proof. intros Hname Htpl. unfold _is_vsphere. rewrite Hname, Htpl. done. Qed.

(** X9.  [_clone_service] never raises for a service name, and never
    touches the lookup table or the specification.  It returns a machine
    only after exactly one clone, of the service's template found in the
    template folder, into the given folder under the Master prefix and the
    service's name, followed by one call that sets the note if the service
    has one; the machine is the one found under that name in the folder
    after the clone.  When it returns nothing it has issued no call, or the
    clone alone. *)
Theorem clone_service_outcome (folder_ : Obj) (name : string) s :
  let vm_name := master_prefix +:+ name in
  ∃ r s', _clone_service self folder_ (VStr name) s = Ok r s'
    ∧ st_heap s' = st_heap s ∧ st_net_table s' = st_net_table s
    ∧ match r with
      | Some vm =>
          ∃ config tpl template,
            dict_get name (services self) = Some config
            ∧ sd_template config = Some tpl
            ∧ traverse_path (template_folder self) tpl (st_server s) = Some template
            ∧ traverse_path folder_ vm_name (clone_vm template folder_ vm_name (st_server s))
              = Some vm
            ∧ st_calls s'
              = st_calls s ++ CCloneVm template folder_ vm_name
                  :: (if sd_note config is Some note then [CSetNote vm note] else [])
      | None =>
          st_calls s' = st_calls s
          ∨ ∃ template, st_calls s' = st_calls s ++ [CCloneVm template folder_ vm_name]
      end.
Proof.
  intros vm_name. unfold _clone_service. munfold.
  destruct (dict_get name (services self)) as [config|] eqn:Hname; cycle 1.
  { rewrite is_vsphere_unknown by done. simpl. eexists None, _. split; [done|].
    simpl. auto. }
  destruct (sd_template config) as [tpl|] eqn:Htpl; cycle 1.
  { rewrite (is_vsphere_without_template name config) by done. simpl.
    eexists None, _. split; [done|]. simpl. auto. }
  rewrite (is_vsphere_with_template name config tpl) by done. simpl.
  unfold do_clone_vm, do_traverse_path. munfold. simpl.
  destruct (traverse_path (template_folder self) tpl (st_server s)) as [template|]
    eqn:Htemplate.
  2: { eexists None, _. split; [done|]. simpl. auto. }
  simpl. fold vm_name.
  destruct (traverse_path folder_ vm_name _) as [vm|] eqn:Hvm.
  2: { eexists None, _. split; [done|]. simpl. eauto. }
  destruct (sd_note config) as [note|] eqn:Hnote; simpl.
  - eexists (Some vm), _. split; [done|]. simpl. split; [done|]. split; [done|].
    exists config, tpl, template. rewrite Hnote, <- app_assoc. done.
  - eexists (Some vm), _. split; [done|]. simpl. split; [done|]. split; [done|].
    exists config, tpl, template. rewrite Hnote. done.
Qed.

(** X11.  A service instance that refers to a service of the catalog that
    has no template, a service of another platform, is passed over by the
    loops of [_master_base_folder_gen] and [_deploy_gen_services] with one
    debug record and no error, and the loops go on; [_clone_service] called
    for such a service returns nothing after one debug record. *)
Theorem foreign_service_is_skipped (name sname : string) (config : service_def)
    (sconfig : list (string * value)) :
  dict_get name (services self) = Some config →
  sd_template config = None →
  dict_get "service" sconfig = Some (VStr name) →
  let skip := add_log (Log DEBUG "Skipping non-vsphere service '%s'" [LStr sname]) in
  (∀ folder_name parent pre post s,
     for_each (master_service_gen self folder_name parent)
       (pre ++ (sname, VDict sconfig) :: post) s
     = (for_each (master_service_gen self folder_name parent) pre;;
        modify skip;;
        for_each (master_service_gen self folder_name parent) post) s)
  ∧ (∀ parent path instance pre post s,
       _deploy_gen_services self (VDict (pre ++ (sname, VDict sconfig) :: post))
         parent path instance s
       = (_deploy_gen_services self (VDict pre) parent path instance;;
          modify skip;;
          _deploy_gen_services self (VDict post) parent path instance) s)
  ∧ (∀ folder_ s,
       _clone_service self folder_ (VStr name) s
       = Ok None (add_log (Log DEBUG "Skipping non-vsphere service '%s'"
                             [LVal (VStr name)]) s)).
Proof.
  intros Hname Htpl Hsref skip. split; [|split].
  - intros folder_name parent pre post s. apply for_each_skip.
    intros s'. unfold master_service_gen, py_getitem. rewrite Hsref. munfold.
    rewrite (is_vsphere_without_template name config) by done. done.
  - intros parent path instance pre post s.
    change (_deploy_gen_services self (VDict (pre ++ (sname, VDict sconfig) :: post))
              parent path instance s)
      with (for_each (deploy_service_gen self parent path instance)
              (pre ++ (sname, VDict sconfig) :: post) s).
    apply for_each_skip.
    intros s'. unfold deploy_service_gen, py_getitem. rewrite Hsref. munfold.
    rewrite (is_vsphere_without_template name config) by done. done.
  - intros folder_ s. unfold _clone_service. munfold.
    rewrite (is_vsphere_without_template name config) by done. done.
Qed.

(** ** Deployment of the services of a folder *)


(** X13.  A service instance with [instances: n] for [n] at most zero is not
    cloned and is no error: [_deploy_gen_services] looks its Master up and,
    found or not, issues no driver call for it. *)
Theorem deploy_service_zero_instances (parent : Obj) (path : string) (instance n : Z)
    (sname name tpl : string) (config : service_def) (sconfig : list (string * value)) s :
  dict_get "service" sconfig = Some (VStr name) →
  dict_get name (services self) = Some config →
  sd_template config = Some tpl →
  dict_get "instances" sconfig = Some (VInt n) →
  n ≤ 0 →
  ∃ s', deploy_service_gen self parent path instance (sname, VDict sconfig) s = Ok tt s'
        ∧ untouched s s'
        ∧ st_net_table s' = st_net_table s
        ∧ st_lookups s' = st_lookups s ++ [(master_folder self, _path path name)].
Proof.
  intros Hsref Hname Htpl Hinst Hn.
  unfold deploy_service_gen, py_getitem. rewrite Hsref. munfold.
  rewrite (is_vsphere_with_template name config tpl) by done. simpl.
  rewrite (instances_handler_within_warn KService n) by (done || simpl; lia).
  unfold do_traverse_path. simpl.
  destruct (traverse_path _ _ _); simpl.
  - unfold range. rewrite seqZ_nil by done. simpl. eexists. split; [done|]. done.
  - eexists. split; [done|]. done.
Qed.

(** X14.  A base folder without an [instances] key is deployed as a single
    instance that gets no folder of its own: [_deploy_base_folder_gen]
    creates no folder, and what it issues are the calls of the generation of
    its services in the folder it was given (clones into that folder, NIC
    changes, portgroup creations). *)
Theorem deploy_base_folder_single_instance (name : string) (fd : list (string * value))
    (parent : Obj) (path : string) :
  dict_get "instances" fd = None →
  preserves (calls_added (is_service_call_in parent))
    (_deploy_base_folder_gen self name (VDict fd) parent path).
Proof.
  intros Hinst s. unfold _deploy_base_folder_gen. munfold.
  pose proof (logs_py_getitem (VDict fd) "group" s) as Hg.
  destruct (py_getitem (VDict fd) "group" s) as [g s1|e s1]; simpl in Hg;
    [|by apply logged_only_calls_added].
  pose proof (logs_get_group g s1) as Hgrp.
  destruct (_get_group self g s1) as [grp s2|e s2]; simpl in Hgrp;
    [|by apply logged_only_calls_added; etrans].
  assert (Hs2 : logged_only s s2) by (by etrans). clear Hg Hgrp.
  rewrite instances_handler_default by done. simpl.
  munfold. simpl.
  destruct (dict_get "services" fd) as [svcs|]; simpl.
  2: { apply logged_only_calls_added. etrans; [exact Hs2|]. by repeat split. }
  match goal with |- context [_deploy_gen_services self svcs parent ?p ?i ?s4] =>
    assert (Hs4 : calls_added (is_service_call_in parent) s s4)
      by (apply logged_only_calls_added; etrans; [exact Hs2|]; by repeat split);
    pose proof (frame_deploy_gen_services (calls_added (is_service_call_in parent))
                  (is_service_call_in parent) (logged_only_calls_added _)
                  (calls_added_lookup _) (calls_added_call _) (calls_added_heap' _)
                  (calls_added_table' _) svcs parent p i) as Hgen;
    specialize (Hgen ltac:(by intros []) ltac:(by intros []) ltac:(done) s4);
    destruct (_deploy_gen_services self svcs parent p i s4)
  end; simpl in *; by etrans.
Qed.

(** ** Instances of services and of base folders *)

Lemma filter_none (sel : call → bool) (l : list call) :
  Forall (λ c, sel c = false) l → filter sel l = [].
Proof.
  induction 1 as [|c l Hc _ IH]; [done|].
  rewrite filter_cons_False by (rewrite Hc; auto). exact IH.
Qed.

(** A loop each turn of which starts with a call of the kind [sel] and goes
    on with calls of other kinds: the calls of the kind [sel] it issues are
    those of the turns it went through, in order. *)
Lemma for_each_marked_calls {A} (sel : call → bool) (mark : A → call) (body : A → M unit)
    (l : list A) :
  (∀ a, sel (mark a) = true) →
  (∀ a s, ∃ new, st_calls (final_state (body a s)) = st_calls s ++ mark a :: new
                 ∧ Forall (λ c, sel c = false) new) →
  ∀ s, ∃ new, st_calls (final_state (for_each body l s)) = st_calls s ++ new
              ∧ filter sel new `prefix_of` (mark <$> l)
              ∧ (raised (for_each body l s) = None → filter sel new = mark <$> l).
Proof.
  intros Hmark Hbody. induction l as [|a l IH]; intros s.
  { exists []. simpl. by rewrite app_nil_r. }
  cbn [for_each]. munfold.
  destruct (Hbody a s) as (new0 & Hc0 & Hnew0).
  destruct (body a s) as [[] s1|e s1]; simpl in Hc0.
  - destruct (IH s1) as (new & Hc & Hpre & Heq).
    exists (mark a :: new0 ++ new). split; [by rewrite Hc, Hc0, <- app_assoc|].
    rewrite filter_cons_True by (rewrite Hmark; done).
    rewrite filter_app, filter_none by done. simpl. split.
    + by apply prefix_cons.
    + intros Hok. by rewrite Heq.
  - exists (mark a :: new0). split; [done|].
    rewrite filter_cons_True by (rewrite Hmark; done).
    rewrite filter_none by done. simpl. split; [|done].
    apply prefix_cons, prefix_nil.
Qed.

Lemma mbind_Ok {A B} (m : M A) (k : A → M B) (a : A) s s' :
  m s = Ok a s' → (m ≫= k) s = k a s'.
Proof. intros Hm. munfold. by rewrite Hm. Qed.

Lemma mbind_Raise {A B} (m : M A) (k : A → M B) (e : exn) s s' :
  m s = Raise e s' → (m ≫= k) s = Raise e s'.
Proof. intros Hm. munfold. by rewrite Hm. Qed.

Lemma instance_name_of_bare (name : string) (n i : Z) :
  1 < n → instance_name_of name "" n i = name +:+ pad i.
Proof.
  intros Hn. unfold instance_name_of.
  rewrite bool_decide_eq_true_2 by done. by rewrite decide_True by lia.
Qed.

Lemma calls_added_impl (P Q : call → Prop) s s' :
  (∀ c, P c → Q c) → calls_added P s s' → calls_added Q s s'.
Proof.
  intros HPQ (new & Hc & Hnew). exists new. split; [done|]. by eapply Forall_impl.
Qed.

(** The calls of a computation in two parts are those of the first part
    followed by those of the second. *)
Lemma calls_added_seq {A B} (P1 P2 : call → Prop) (m : M A) (k : A → M B) :
  preserves (calls_added P1) m →
  (∀ a, preserves (calls_added P2) (k a)) →
  ∀ s, ∃ new1 new2,
    st_calls (final_state ((m ≫= k) s)) = st_calls s ++ new1 ++ new2
    ∧ Forall P1 new1 ∧ Forall P2 new2.
Proof.
  intros Hm Hk s. destruct (Hm s) as (new1 & Hc1 & Hnew1). munfold.
  destruct (m s) as [a s1|e s1]; simpl in *.
  - destruct (Hk a s1) as (new2 & Hc2 & Hnew2).
    exists new1, new2. by rewrite Hc2, Hc1, <- app_assoc.
  - exists new1, []. by rewrite app_nil_r.
Qed.

Lemma calls_added_after_call (P : call → Prop) (c : call) (srv : Server) s s' :
  calls_added P (add_call c (set_server srv s)) s' →
  ∃ new, st_calls s' = st_calls s ++ c :: new ∧ Forall P new.
Proof. intros (new & Hc & Hnew). exists new. simpl in Hc. by rewrite Hc, <- app_assoc. Qed.

(** X24.  A base folder must name a group although nothing is done with it:
    without a [group] key [_deploy_base_folder_gen] raises [KeyError] before
    it logs or calls anything, and so does [_master_base_folder_gen] when
    there is no [master-group] key either. *)
Theorem base_folder_without_group_raises (name : string) (fd : list (string * value))
    (parent : Obj) (path : string) s :
  dict_get "group" fd = None →
  _deploy_base_folder_gen self name (VDict fd) parent path s = Raise KeyError s
  ∧ (dict_get "master-group" fd = None →
     _master_base_folder_gen self name (VDict fd) parent s = Raise KeyError s).
Proof.
  intros Hgroup. split.
  - unfold _deploy_base_folder_gen, py_getitem. munfold. by rewrite Hgroup.
  - intros Hmaster. unfold _master_base_folder_gen. munfold.
    rewrite py_contains_dict.
    rewrite bool_decide_eq_false_2 by (eapply dict_get_None_not_elem, Hmaster).
    unfold py_getitem. munfold. by rewrite Hgroup.
Qed.

(** X25.  A service of the catalog with [instances: n], [1 < n <= 50], whose
    Master is found: Deployment clones the Master into the folder once for
    each [i] of [0 .. n-1], in that order, under the name of the entry in
    the folder followed by a space and the padded [i].  Should a turn fail,
    the clones issued are those of the turns up to it. *)
Theorem deploy_service_clones (parent : Obj) (path : string) (instance n : Z)
    (sname name tpl : string) (config : service_def) (sconfig : list (string * value))
    (service : Obj) s :
  dict_get "service" sconfig = Some (VStr name) →
  dict_get name (services self) = Some config →
  sd_template config = Some tpl →
  dict_get "instances" sconfig = Some (VInt n) →
  1 < n ≤ 50 →
  traverse_path (master_folder self) (_path path name) (st_server s) = Some service →
  let run := deploy_service_gen self parent path instance (sname, VDict sconfig) s in
  let expected := (λ i, CCloneVm service parent (sname +:+ " " +:+ pad i)) <$> seqZ 0 n in
  ∃ new, st_calls (final_state run) = st_calls s ++ new
         ∧ filter is_clone_vm new `prefix_of` expected
         ∧ (raised run = None → filter is_clone_vm new = expected).
Proof.
  intros Hsvc Hcfg Htpl Hinst Hn Hmaster run expected. subst run.
  unfold deploy_service_gen.
  rewrite (mbind_Ok _ _ (VStr name) s s) by (unfold py_getitem; by rewrite Hsvc).
  rewrite (mbind_Ok _ _ true s s) by (by eapply is_vsphere_with_template).
  cbn [negb]. erewrite mbind_Ok by reflexivity.
  erewrite mbind_Ok by (apply (instances_handler_within_warn KService n); [done|simpl; lia]).
  cbv beta iota. erewrite mbind_Ok by reflexivity.
  erewrite mbind_Ok by (unfold do_traverse_path; cbn [st_server add_log]; by rewrite Hmaster).
  cbv beta iota.
  set (Q := λ c : call, is_nic_change c ∨ is_create_portgroup c).
  match goal with |- context [for_each ?body ?l ?s2] =>
    destruct (for_each_marked_calls is_clone_vm
                (λ i, CCloneVm service parent (sname +:+ " " +:+ pad i)) body l) with (s := s2)
      as (new & Hc & Hpre & Heq)
  end.
  { done. }
  { intros i s0. cbv beta zeta. rewrite decide_True by lia.
    erewrite mbind_Ok by reflexivity.
    match goal with |- context [final_state (?rest ?s1)] =>
      assert (Hrest : preserves (calls_added Q) rest)
    end.
    { apply preserves_bind; [tc_solve| |intros [vm|]].
      - apply preserves_traverse_path. intros s1. apply calls_added_lookup.
      - apply preserves_bind; [tc_solve| |intros l].
        + apply (preserves_weaken logged_only); [apply logged_only_calls_added|].
          apply logs_networks_of.
        + apply (frame_configure_nics (calls_added Q) Q (logged_only_calls_added _)
                   (calls_added_call _) (calls_added_heap' _)).
          * intros c Hc. by left.
          * intros nm j _.
            apply (frame_get_net (calls_added Q) Q (logged_only_calls_added _)
                     (calls_added_call _) (calls_added_table' _)).
            intros c Hc. by right.
      - apply preserves_modify. intros s1. calls_atom. }
    match goal with |- context [final_state (?rest ?s1)] =>
      destruct (calls_added_after_call Q _ _ _ _ (Hrest s1)) as (new & Hc & Hnew)
    end.
    exists new. split; [exact Hc|].
    eapply Forall_impl; [exact Hnew|]. intros c [Hc'|Hc']; by destruct c. }
  exists new. done.
Qed.

(** X26.  A base folder with [instances: n], [1 < n <= 25]: Deployment
    creates one folder for each [i] of [0 .. n-1] directly in the folder it
    was given, in that order, named after the base folder followed by the
    padded [i], and no other folder.  Should a turn fail, the folders created
    are those of the turns up to it. *)
Theorem deploy_base_folder_instances (name : string) (fd : list (string * value))
    (parent : Obj) (path : string) (n : Z) s :
  dict_get "instances" fd = Some (VInt n) →
  1 < n ≤ 25 →
  let run := _deploy_base_folder_gen self name (VDict fd) parent path s in
  let expected := (λ i, CCreateFolder (name +:+ pad i) parent) <$> seqZ 0 n in
  ∃ new, st_calls (final_state run) = st_calls s ++ new
         ∧ filter is_create_folder new `prefix_of` expected
         ∧ (raised run = None → filter is_create_folder new = expected).
Proof.
  intros Hinst Hn run expected. subst run.
  assert (Hnone : ∀ {A} (o : outcome A),
            st_calls (final_state o) = st_calls s → raised o ≠ None →
            ∃ new, st_calls (final_state o) = st_calls s ++ new
                   ∧ filter is_create_folder new `prefix_of` expected
                   ∧ (raised o = None → filter is_create_folder new = expected)).
  { intros A o Hc Hr. exists []. rewrite app_nil_r. split; [done|].
    split; [apply prefix_nil|done]. }
  unfold _deploy_base_folder_gen.
  pose proof (logs_py_getitem (VDict fd) "group" s) as Hg.
  destruct (py_getitem (VDict fd) "group" s) as [g s1|e s1] eqn:Eg; simpl in Hg.
  2: { rewrite (mbind_Raise _ _ e s s1) by done.
       apply Hnone; [|done]. simpl. by destruct Hg as ((_ & -> & _) & _). }
  rewrite (mbind_Ok _ _ g s s1) by done.
  pose proof (logs_get_group g s1) as Hgrp.
  destruct (_get_group self g s1) as [grp s2|e s2] eqn:Egrp; simpl in Hgrp.
  2: { rewrite (mbind_Raise _ _ e s1 s2) by done.
       apply Hnone; [|done]. simpl.
       destruct Hg as ((_ & <- & _) & _). by destruct Hgrp as ((_ & -> & _) & _). }
  rewrite (mbind_Ok _ _ grp s1 s2) by done.
  assert (Hs2 : st_calls s2 = st_calls s).
  { destruct Hg as ((_ & <- & _) & _). by destruct Hgrp as ((_ & -> & _) & _). }
  clear Hg Hgrp Hnone.
  erewrite mbind_Ok by (apply (instances_handler_within_warn KFolder n); [done|simpl; lia]).
  cbv beta iota. erewrite mbind_Ok by reflexivity.
  match goal with |- context [for_each ?body ?l ?s3] =>
    destruct (for_each_marked_calls is_create_folder
                (λ i, CCreateFolder (name +:+ pad i) parent) body l) with (s := s3)
      as (new & Hc & Hpre & Heq)
  end.
  { done. }
  { intros i s0. cbv beta zeta. rewrite decide_True by lia.
    rewrite instance_name_of_bare by lia.
    destruct (create_folder (name +:+ pad i) parent (st_server s0)) as [f srv] eqn:Hcf.
    erewrite mbind_Ok by (unfold do_create_folder; rewrite Hcf; reflexivity).
    match goal with |- context [final_state (?rest ?s1)] =>
      assert (Hrest : preserves (calls_added (is_service_call_in f)) rest)
    end.
    { apply preserves_bind; [tc_solve| |intros _].
      { apply preserves_modify. intros ?. calls_atom. }
      apply preserves_bind; [tc_solve| |intros svcs].
      - apply (preserves_weaken logged_only); [apply logged_only_calls_added|].
        apply logs_py_getitem.
      - apply (frame_deploy_gen_services (calls_added (is_service_call_in f))
                 (is_service_call_in f) (logged_only_calls_added _)
                 (calls_added_lookup _) (calls_added_call _) (calls_added_heap' _)
                 (calls_added_table' _)); [by intros []|by intros []|done]. }
    match goal with |- context [final_state (?rest ?s1)] =>
      destruct (calls_added_after_call (is_service_call_in f)
                  (CCreateFolder (name +:+ pad i) parent) srv s0 _ (Hrest s1))
        as (new & Hc & Hnew)
    end.
    exists new. split; [exact Hc|].
    eapply Forall_impl; [exact Hnew|]. intros c Hc'. by destruct c. }
  exists new. cbn [st_calls add_log] in Hc. rewrite Hs2 in Hc. done.
Qed.

(** ** Reconciliation of the NIC count *)

Lemma delete_loop_calls (vm : Obj) (l : list (Z * Z)) s :
  ∃ s', for_each (λ '(i, nic), do_delete_nic vm nic) l s = Ok tt s'
        ∧ st_calls s' = st_calls s ++ ((λ p, CDeleteNic vm p.2) <$> l)
        ∧ st_heap s' = st_heap s ∧ st_net_table s' = st_net_table s.
Proof.
  revert s. induction l as [|[i nic] l IH]; intros s; simpl.
  { exists s. by rewrite app_nil_r. }
  munfold. simpl.
  destruct (IH (add_call (CDeleteNic vm nic)
                  (set_server (delete_nic vm nic (st_server s)) s)))
    as (s' & Hrun & Hcalls & Hheap & Htab).
  exists s'. split; [exact Hrun|]. rewrite Hcalls. simpl. rewrite <- app_assoc. done.
Qed.

Lemma zip_reverse_range (a : Z) (c d : nat) :
  (d ≤ c)%nat →
  (zip (seqZ a (Z.of_nat d)) (reverse (seqZ 0 (Z.of_nat c)))).*2
  = (λ j, Z.of_nat c - 1 - j) <$> seqZ 0 (Z.of_nat d).
Proof.
  intros Hdc. apply list_eq. intros i.
  rewrite !list_lookup_fmap. rewrite lookup_zip_with.
  destruct (decide (i < d)%nat) as [Hi|Hi].
  - rewrite !lookup_seqZ_lt by lia. simpl.
    rewrite reverse_lookup by (rewrite length_seqZ; lia).
    rewrite length_seqZ, lookup_seqZ_lt by lia. simpl. f_equal. lia.
  - rewrite !lookup_seqZ_ge by lia. done.
Qed.

(** X15.  On a VM with more NICs than the service declares networks, the
    count reconciliation deletes [current - target] NICs and does nothing
    else: the calls are [delete_nic] with the numbers [current - 1],
    [current - 2], ..., [target], in that order, and the declared list is
    left as it is. *)
Theorem reconcile_deletes_excess (vm : Obj) (l : loc) (declared : list string) s :
  st_heap s !! l = Some declared →
  (length declared < length (vm_network vm (st_server s)))%nat →
  let current := Z.of_nat (length (vm_network vm (st_server s))) in
  let target := Z.of_nat (length declared) in
  ∃ s', reconcile_nic_count vm l s = Ok target s'
        ∧ st_calls s'
          = st_calls s ++ ((λ j, CDeleteNic vm (current - 1 - j)) <$> seqZ 0 (current - target))
        ∧ st_heap s' = st_heap s
        ∧ st_net_table s' = st_net_table s.
Proof.
  intros Hheap Hlt current target.
  unfold reconcile_nic_count, py_len, py_list. munfold. simpl.
  rewrite Hheap. simpl. fold current target.
  rewrite decide_True by (unfold current, target; lia). simpl.
  match goal with |- context [for_each _ ?l0 ?s0] =>
    destruct (delete_loop_calls vm l0 s0) as (s' & -> & Hcalls & Hh & Ht)
  end.
  exists s'. split; [done|]. split; [|done].
  rewrite Hcalls. simpl. f_equal.
  change (λ p : Z * Z, CDeleteNic vm p.2) with (CDeleteNic vm ∘ (snd : Z * Z → Z)).
  rewrite (list_fmap_compose (snd : Z * Z → Z) (CDeleteNic vm)).
  unfold range, current, target.
  replace (Z.of_nat (length (vm_network vm (st_server s))) - Z.of_nat (length declared))
    with (Z.of_nat (length (vm_network vm (st_server s)) - length declared)) by lia.
  rewrite zip_reverse_range by lia. rewrite <- list_fmap_compose. done.
Qed.

Lemma add_missing_nic_step (vm : Obj) (l : loc) (xs : list string) (x : string) s :
  st_heap s !! l = Some xs →
  last xs = Some x →
  ∃ s' net model,
    add_missing_nic vm l s = Ok tt s'
    ∧ st_calls s' = st_calls s ++ [CAddNic vm net model x]
    ∧ (model = "vmxnet3" ∨ model = "e1000")
    ∧ st_heap s' = <[l := take (pred (length xs)) xs]> (st_heap s)
    ∧ st_net_table s' = st_net_table s.
Proof.
  intros Hheap Hlast.
  unfold add_missing_nic, do_has_tools, py_pop, py_list, do_get_network, do_add_nic.
  munfold. simpl. rewrite Hheap. simpl. rewrite Hlast. simpl.
  eexists _, _, _. split; [done|]. simpl. split; [done|].
  split; [|done]. destruct (has_tools vm (st_server s)); auto.
Qed.

Lemma add_loop_calls (vm : Obj) (l : loc) (d : nat) (a : Z) (xs : list string) s :
  st_heap s !! l = Some xs →
  (d ≤ length xs)%nat →
  ∃ s' new,
    for_each (λ i : Z, add_missing_nic vm l) (seqZ a (Z.of_nat d)) s = Ok tt s'
    ∧ st_calls s' = st_calls s ++ new
    ∧ Forall2 (λ c name, ∃ net model, c = CAddNic vm net model name
                                      ∧ (model = "vmxnet3" ∨ model = "e1000"))
        new (reverse (drop (length xs - d) xs))
    ∧ st_heap s' !! l = Some (take (length xs - d) xs)
    ∧ st_net_table s' = st_net_table s.
Proof.
  revert a xs s. induction d as [|d IH]; intros a xs s Hheap Hd.
  { exists s, []. rewrite app_nil_r, Nat.sub_0_r, drop_all, firstn_all.
    split; [done|]. split; [done|]. split; [constructor|done]. }
  rewrite seqZ_cons by lia. cbn [for_each].
  destruct (last xs) as [x|] eqn:Hlast; cycle 1.
  { apply last_None in Hlast. subst xs. simpl in Hd. lia. }
  destruct (add_missing_nic_step vm l xs x s Hheap Hlast)
    as (s0 & net & model & Hstep & Hcalls0 & Hmodel & Hh0 & Ht0).
  munfold. rewrite Hstep.
  replace (Z.pred (Z.of_nat (S d))) with (Z.of_nat d) by lia.
  apply last_Some in Hlast as [xs' ->].
  rewrite length_app in *. simpl in *.
  replace (pred (length xs' + 1)) with (length xs') in Hh0 by lia.
  rewrite take_app_length in Hh0.
  destruct (IH (Z.succ a) xs' s0) as (s' & new & Hrun & Hcalls & Hnew & Hh & Ht).
  { rewrite Hh0. by rewrite lookup_insert_eq. }
  { lia. }
  exists s', (CAddNic vm net model x :: new). split; [exact Hrun|].
  split; [by rewrite Hcalls, Hcalls0, <- app_assoc|].
  replace (length xs' + 1 - S d)%nat with (length xs' - d)%nat by lia.
  split; [|split; [|congruence]].
  - rewrite drop_app_le by lia. rewrite reverse_app. simpl.
    constructor; [eauto|done].
  - rewrite Hh. f_equal. rewrite take_app_le by lia. done.
Qed.

(** X16.  On a VM with fewer NICs than the service declares networks, the
    count reconciliation adds [target - current] NICs and does nothing
    else: the calls are [add_nic], one for each declared name after the
    first [current], taken from the end of the list backwards, each with the
    name as summary and the model [vmxnet3] or [e1000]; those names are gone
    from the declared list afterwards, and the number it returns is
    [current]. *)
Theorem reconcile_adds_missing (vm : Obj) (l : loc) (declared : list string) s :
  st_heap s !! l = Some declared →
  (length (vm_network vm (st_server s)) < length declared)%nat →
  let current := length (vm_network vm (st_server s)) in
  ∃ s' new,
    reconcile_nic_count vm l s = Ok (Z.of_nat current) s'
    ∧ st_calls s' = st_calls s ++ new
    ∧ Forall2 (λ c name, ∃ net model, c = CAddNic vm net model name
                                      ∧ (model = "vmxnet3" ∨ model = "e1000"))
        new (reverse (drop current declared))
    ∧ st_heap s' !! l = Some (take current declared)
    ∧ st_net_table s' = st_net_table s.
Proof.
  intros Hheap Hlt current.
  unfold reconcile_nic_count, py_len, py_list. munfold. simpl.
  rewrite Hheap. simpl. fold current.
  rewrite decide_False by lia. rewrite decide_True by (unfold current; lia). simpl.
  unfold range.
  replace (Z.of_nat (length declared) - Z.of_nat current)
    with (Z.of_nat (length declared - current)) by (unfold current; lia).
  match goal with |- context [for_each _ _ ?s0] =>
    destruct (add_loop_calls vm l (length declared - current) 0 declared s0)
      as (s' & new & -> & Hcalls & Hnew & Hh & Ht)
  end; [done|lia|].
  replace (length declared - (length declared - current))%nat with current in *
    by (unfold current; lia).
  rewrite Hh. simpl. exists s', new. rewrite length_take.
  split; [do 2 f_equal; unfold current; lia|]. done.
Qed.

(** ** Instance resolution *)

(** X6.  A structured [instances] directive with a [number] within the warn
    threshold resolves to that number, whether or not it also has a
    [size-of], and to the directive's [prefix], or the empty string if it
    has none; nothing is logged. *)
Theorem instances_handler_number (kind : object_kind) (n : Z) (name prefix : string)
    items (inst : list (string * value)) s :
  dict_get "instances" items = Some (VDict inst) →
  dict_get "number" inst = Some (VInt n) →
  n ≤ warn (thresholds kind) →
  dict_get "prefix" inst = Some (VStr prefix)
  ∨ (dict_get "prefix" inst = None ∧ prefix = "") →
  _instances_handler (VDict items) name kind s = Ok (n, prefix) s.
Proof.
  intros Hinst Hnum Hn Hprefix. unfold _instances_handler. munfold. simpl.
  rewrite bool_decide_eq_true_2 by (eapply dict_get_Some_elem, Hinst).
  rewrite Hinst. munfold. simpl.
  assert (warn (thresholds kind) ≤ error (thresholds kind)) by (destruct kind; simpl; lia).
  rewrite (bool_decide_eq_true_2 ("number" ∈ inst.*1))
    by (eapply dict_get_Some_elem, Hnum).
  destruct Hprefix as [Hp|[Hp ->]].
  - rewrite bool_decide_eq_true_2 by (eapply dict_get_Some_elem, Hp).
    rewrite Hp. munfold. simpl. rewrite Hnum. munfold. simpl.
    rewrite decide_False by lia. rewrite decide_False by lia. done.
  - rewrite bool_decide_eq_false_2 by (eapply dict_get_None_not_elem, Hp).
    rewrite Hnum. munfold. simpl.
    rewrite decide_False by lia. rewrite decide_False by lia. done.
Qed.

(** X7.  A structured [instances] directive without [number]: with a
    [size-of], whatever group it names, it resolves to one instance; with
    neither, the directive is logged as unknown and resolves to zero
    instances, which is not an error. *)
Theorem instances_handler_without_number (kind : object_kind) (name prefix : string)
    items (inst : list (string * value)) s :
  dict_get "instances" items = Some (VDict inst) →
  dict_get "number" inst = None →
  dict_get "prefix" inst = Some (VStr prefix)
  ∨ (dict_get "prefix" inst = None ∧ prefix = "") →
  _instances_handler (VDict items) name kind s
  = match dict_get "size-of" inst with
    | Some _ => Ok (1, prefix) s
    | None =>
        Ok (0, prefix)
          (add_log (Log ERROR "Unknown instances specification: %s" [LVal (VDict inst)]) s)
    end.
Proof.
  intros Hinst Hnum Hprefix. unfold _instances_handler. munfold. simpl.
  rewrite bool_decide_eq_true_2 by (eapply dict_get_Some_elem, Hinst).
  rewrite Hinst. munfold. simpl.
  rewrite (bool_decide_eq_false_2 ("number" ∈ inst.*1))
    by (eapply dict_get_None_not_elem, Hnum).
  destruct Hprefix as [Hp|[Hp ->]].
  - rewrite bool_decide_eq_true_2 by (eapply dict_get_Some_elem, Hp).
    rewrite Hp. munfold. simpl.
    destruct (dict_get "size-of" inst) as [v|] eqn:Hsize.
    + rewrite bool_decide_eq_true_2 by (eapply dict_get_Some_elem, Hsize).
      destruct kind; done.
    + rewrite bool_decide_eq_false_2 by (eapply dict_get_None_not_elem, Hsize).
      destruct kind; done.
  - rewrite bool_decide_eq_false_2 by (eapply dict_get_None_not_elem, Hp).
    destruct (dict_get "size-of" inst) as [v|] eqn:Hsize.
    + rewrite bool_decide_eq_true_2 by (eapply dict_get_Some_elem, Hsize).
      destruct kind; done.
    + rewrite bool_decide_eq_false_2 by (eapply dict_get_None_not_elem, Hsize).
      destruct kind; done.
Qed.


(** ** The [enabled] key *)

(** X21.  [_is_enabled] takes the truth value Python gives the entry: a node
    whose [enabled] is a string is enabled unless the string is empty, so
    [enabled: "false"] enables the node; a node without the key is
    enabled. *)
Theorem is_enabled_of_string items s :
  match dict_get "enabled" items with
  | None => _is_enabled (VDict items) s = Ok true s
  | Some (VStr x) => _is_enabled (VDict items) s = Ok (bool_decide (x ≠ "")) s
  | Some (VBool b) => _is_enabled (VDict items) s = Ok b s
  | Some (VInt n) => _is_enabled (VDict items) s = Ok (bool_decide (n ≠ 0)) s
  | Some VNone => _is_enabled (VDict items) s = Ok false s
  | Some _ => True
  end.
Proof.
  destruct (dict_get "enabled" items) as [v|] eqn:Hget;
    [|by apply is_enabled_default].
  unfold _is_enabled. munfold. simpl.
  rewrite bool_decide_eq_true_2 by (eapply dict_get_Some_elem, Hget).
  rewrite Hget. destruct v as [ |b|n|x|l|d]; simpl; try done.
  - f_equal. case_bool_decide; [by apply negb_true_iff, Z.eqb_neq|].
    apply negb_false_iff, Z.eqb_eq. destruct (decide (n = 0)); done.
  - f_equal. case_bool_decide as Hx.
    + apply negb_true_iff. by apply String.eqb_neq.
    + apply negb_false_iff, String.eqb_eq. destruct (decide (x = "")); done.
Qed.

End MoreProperties.

(** * The Master creation phase *)
Section PhaseProperties.
Context `{Hypervisor}.

(** X10.  [create_masters] never writes the lookup table.  When the
    template folder is not found it returns without a driver call.  When it
    is found, the first call creates the folder [MASTER-FOLDERS] in the
    environment root; then come the calls of [_create_master_networks] for
    the categories of the catalog (refreshes of the network system and
    creations of missing portgroups), and only after them those of the
    Master walk (folder creations, clones, notes, NIC changes, snapshots). *)
Theorem create_masters_calls (format_structure : Obj → Server → string)
    (self : VsphereInterface) (server_root : Obj) (root_name path : string) s :
  let run := create_masters format_structure self server_root root_name (Some path) s in
  st_net_table (final_state run) = st_net_table s
  ∧ match traverse_path server_root path (st_server s) with
    | None =>
        raised run = None
        ∧ st_calls (final_state run) = st_calls s
        ∧ st_server (final_state run) = st_server s
    | Some template =>
        ∃ net_calls walk_calls,
          st_calls (final_state run)
          = st_calls s ++ CCreateFolder master_root_name (root_folder self)
              :: net_calls ++ walk_calls
          ∧ Forall (λ c, ∃ net_type, net_type ∈ (networks self).*1
                                     ∧ is_master_network_call self net_type true c)
              net_calls
          ∧ Forall is_master_call walk_calls
    end.
Proof.
  intros run. subst run. unfold create_masters.
  rewrite (mbind_Ok _ _ path s s) by reflexivity.
  erewrite mbind_Ok by reflexivity.
  destruct (traverse_path server_root path (st_server s)) as [template|]; [|done].
  erewrite mbind_Ok by reflexivity.
  destruct (create_folder master_root_name (root_folder self) (st_server s))
    as [master srv] eqn:Hcf.
  erewrite mbind_Ok by (unfold do_create_folder; simpl; rewrite Hcf; reflexivity).
  erewrite mbind_Ok by reflexivity. cbv zeta.
  set (self' := with_folders self master template).
  set (Pnet := λ c, ∃ net_type, net_type ∈ (networks self).*1
                                ∧ is_master_network_call self net_type true c).
  pose proof (calls_added_preorder Pnet) as Hpre_net.
  pose proof (calls_added_preorder is_master_call) as Hpre_walk.
  pose proof table_kept_preorder as Hpre_table.
  assert (Hnet : preserves (calls_added Pnet)
                   (for_each (λ '(net, _), _create_master_networks self' net true)
                      (networks self'))).
  { apply preserves_for_each; [done|]. apply Forall_forall. intros [net config] Hin.
    eapply preserves_weaken; [|apply create_master_networks_adds].
    intros s1 s2. apply calls_added_impl. intros c Hc. exists net. split; [|exact Hc].
    apply list_elem_of_fmap. by exists (net, config). }
  assert (Hnet_table : preserves table_kept
                         (for_each (λ '(net, _), _create_master_networks self' net true)
                            (networks self'))).
  { apply preserves_for_each_all; [done|]. intros [net config].
    apply create_master_networks_table. }
  assert (Hlast : ∀ R, PreOrder R → (∀ s1 s2, logged_only s1 s2 → R s1 s2) →
            preserves R (tree ← gets (λ s1, format_structure (root_folder self')
                                              (st_server s1));
                         log DEBUG tree [])).
  { intros R HR Hlog. apply preserves_bind; [done|by apply preserves_gets|].
    intros tree. apply preserves_modify. intros s1. apply Hlog. by repeat split. }
  assert (Hwalk : preserves (calls_added is_master_call)
                    (_master_parent_folder_gen self' (folders self') (master_folder self');;
                     tree ← gets (λ s1, format_structure (root_folder self') (st_server s1));
                     log DEBUG tree [])).
  { apply preserves_bind; [done| |intros _].
    - apply (frame_master_parent_folder_gen self' (calls_added is_master_call)
               is_master_call);
        auto using logged_only_calls_added, calls_added_lookup, calls_added_call,
          calls_added_heap.
    - apply Hlast; [done|]. apply logged_only_calls_added. }
  assert (Hwalk_table : preserves table_kept
                    (_master_parent_folder_gen self' (folders self') (master_folder self');;
                     tree ← gets (λ s1, format_structure (root_folder self') (st_server s1));
                     log DEBUG tree [])).
  { apply preserves_bind; [done| |intros _].
    - apply (frame_master_parent_folder_gen self' table_kept (λ _, True)); try done.
      intros s1 s2 Hs. by apply logged_only_table_kept.
    - apply Hlast; [done|]. apply logged_only_table_kept. }
  match goal with |- context [final_state (?m ?s3)] =>
    destruct (calls_added_seq Pnet is_master_call _ _ Hnet (λ _, Hwalk) s3)
      as (new1 & new2 & Hc & Hnew1 & Hnew2);
    pose proof (preserves_bind table_kept _ _ Hnet_table (λ _, Hwalk_table) s3) as Htab
  end.
  split.
  - rewrite Htab. done.
  - exists new1, new2. rewrite Hc. simpl. rewrite <- app_assoc. done.
Qed.

End PhaseProperties.

(** * The interface on the reference hypervisor *)

Import Ref Examples.

(** C2.  The Master walk tests [_is_enabled] the wrong way round.  On
    [folders: {Team: ...}], which has no [enabled] key, it returns at once
    with the warning for a disabled folder and no driver call; on the same
    tree with [enabled: false] at its top it goes through the tree and
    creates the folder of [Team], clones [web] and takes the snapshot.  And
    where it does go through a node, the folder of a child is created before
    the child's [enabled] is looked at: a child with [enabled: false] still
    gets its Master folder. *)
Theorem master_walk_enabled_check_inverted :
  _master_parent_folder_gen (interface tree) tree env_master (init srv0 heap0)
  = Ok tt (add_log (Log WARNING "Skipping disabled parent-type folder %s"
                      [LStr "MASTER-FOLDERS"]) (init srv0 heap0))
  ∧ let off := _master_parent_folder_gen (interface tree_off) tree_off env_master
                 (init srv0 heap0) in
    raised off = None
    ∧ st_calls (final_state off)
      = [CCreateFolder "(MASTER) Team" env_master;
         CCloneVm ["Templates"; "web-tmpl"] (env_master ++ ["(MASTER) Team"]) "(MASTER) web";
         CCreateSnapshot (env_master ++ ["(MASTER) Team"; "(MASTER) web"])
           "initial mastering snapshot" "Beginning of Master configuration"]
    ∧ st_calls (final_state (_master_parent_folder_gen (interface tree_off_team_off)
                               tree_off_team_off env_master (init srv0 heap0)))
      = [CCreateFolder "(MASTER) Team" env_master].
Proof. repeat split; vm_compute; reflexivity. Qed.

(** C1.  Master generation puts the Master of [web] of the base folder
    [Team] at [/(MASTER) Team/(MASTER) web] below the Master root (the walk
    is run on the tree with [enabled: false] at its top, the only one it goes
    through).  Deployment of [Team] looks the Master up at
    [/(MASTER) Team/(MASTER) Team/(MASTER) web]: [_deploy_parent_folder_gen]
    and [_deploy_base_folder_gen] both extend the path with the folder's
    name.  Nothing is found there and no service is cloned. *)
Theorem deploy_lookup_path_repeats_base_folder :
  let master := _master_parent_folder_gen (interface tree_off) tree_off env_master
                  (init srv0 heap0) in
  let mastered := st_server (final_state master) in
  let deploy := _deploy_parent_folder_gen (interface tree) tree env_root ""
                  (init mastered heap0) in
  filter is_clone_vm (st_calls (final_state master))
  = [CCloneVm ["Templates"; "web-tmpl"] (env_master ++ ["(MASTER) Team"]) "(MASTER) web"]
  ∧ path_string ["(MASTER) Team"; "(MASTER) web"] = "/(MASTER) Team/(MASTER) web"
  ∧ traverse_path env_master "/(MASTER) Team/(MASTER) web" mastered
    = Some (env_master ++ ["(MASTER) Team"; "(MASTER) web"])
  ∧ raised deploy = None
  ∧ st_lookups (final_state deploy)
    = [(env_master, "/(MASTER) Team/(MASTER) Team/(MASTER) web")]
  ∧ traverse_path env_master "/(MASTER) Team/(MASTER) Team/(MASTER) web" mastered = None
  ∧ st_calls (final_state deploy) = [CCreateFolder "Team" env_root].
Proof. repeat split; vm_compute; reflexivity. Qed.

(** C3.  Every VLAN drawn from [_get_vlan] is 2000, because each draw is the
    first value of a new generator: the portgroup of the generic network
    [lan] made by [_create_master_networks] and the portgroups made by
    [_get_net] for two instances of [lan] all get VLAN 2000. *)
Theorem allocated_vlans_all_2000 :
  let run := (_create_master_networks (interface tree) "generic-networks" true;;
              _get_net (interface tree) "lan" 0;;
              _get_net (interface tree) "lan" 1) (init srv0 heap0) in
  raised run = None
  ∧ filter is_create_portgroup (st_calls (final_state run))
    = [CCreatePortgroup "lan" false 2000 "vSwitch0";
       CCreatePortgroup "lan-GENERIC-00" false 2000 "vSwitch0";
       CCreatePortgroup "lan-GENERIC-01" false 2000 "vSwitch0"].
Proof. split; vm_compute; reflexivity. Qed.

(** C4.  In [folders: {Pods: {instances: 2, Team: ...}}] the folder [Pods]
    asks for two instances and [Team] for none.  Deployment resolves the
    instances of a child from the node that contains it: it makes one folder
    [Pods] (the top of the tree has no [instances]) and, inside it, two
    instance folders of [Team]. *)
Theorem deploy_child_instances_from_parent :
  let deploy := _deploy_parent_folder_gen (interface pods_tree) pods_tree env_root ""
                  (init srv0 heap0) in
  raised deploy = None
  ∧ st_calls (final_state deploy)
    = [CCreateFolder "Pods" env_root;
       CCreateFolder "Team00" (env_root ++ ["Pods"]);
       CCreateFolder "Team01" (env_root ++ ["Pods"])].
Proof. split; vm_compute; reflexivity. Qed.

(** C9.  [_configure_nics] on a machine with one NIC and the declared list
    [internet, dmz, office]: two NICs are added, and the two names are gone
    from the list of the specification afterwards. *)
Theorem configure_nics_pops_declared_networks :
  let s := init srv_vm1 heap_vm1 in
  let run := _configure_nics (interface tree) vm1 1%positive None s in
  st_heap s !! 1%positive = Some ["internet"; "dmz"; "office"]
  ∧ raised run = None
  ∧ st_calls (final_state run)
    = [CAddNic vm1 (Some office_pg) "vmxnet3" "office";
       CAddNic vm1 (Some dmz_pg) "vmxnet3" "dmz"]
  ∧ st_heap (final_state run) !! 1%positive = Some ["internet"].
Proof. repeat split; vm_compute; reflexivity. Qed.

(** C6, as stated, fails on a machine with one NIC and the declared list
    [internet, dmz, office].  The two NICs that are added take [office] and
    [dmz], in that order; the walk that follows visits slot 1 only.  So slot
    2, declared for [dmz], ends on [office] without an edit, and the run is
    not the walk of slots 1 to 3. *)
Lemma configure_nics_leaves_added_slots_unwalked :
  let s := init srv_vm1 heap_vm1 in
  let declared := ["internet"; "dmz"; "office"] in
  let run := _configure_nics (interface tree) vm1 1%positive None s in
  (raised run = None
   ∧ filter is_nic_change (st_calls (final_state run))
     = [CAddNic vm1 (Some office_pg) "vmxnet3" "office";
        CAddNic vm1 (Some dmz_pg) "vmxnet3" "dmz"]
   ∧ get_nic_by_id vm1 2 (st_server (final_state run)) = Some (Some office_pg)
   ∧ get_network "dmz" (st_server (final_state run)) = Some dmz_pg)
  ∧ ¬ ∃ n s1,
        reconcile_nic_count vm1 1%positive
          (add_log (Log DEBUG "Editing NICs for VM '%s'" [LStr (name_of vm1)]) s) = Ok n s1
        ∧ run = walk_slots (interface tree) vm1 declared None (length declared) s1.
Proof.
  intros s declared run. split.
  - repeat split; vm_compute; reflexivity.
  - intros (n & s1 & Hcount & Hrun).
    apply (f_equal final_state) in Hcount. simpl in Hcount. subst s1.
    apply (f_equal (λ o, length (st_calls (final_state o)))) in Hrun.
    vm_compute in Hrun. discriminate.
Qed.

(** ** Witnesses *)

Lemma instances_handler_above_warn_raises_witness :
  dict_get "instances" [("instances", VInt 30)] = Some (VInt 30)
  ∧ 30 > warn (thresholds KFolder)
  ∧ _instances_handler (VDict [("instances", VInt 30)]) "Team" KFolder (init srv0 heap0)
    = Raise AttributeError (init srv0 heap0).
Proof.
  split; [reflexivity|]. split; [reflexivity|].
  apply (instances_handler_above_warn_raises KFolder 30 "Team"); reflexivity.
Defined.

Lemma get_net_generic_twice_witness :
  NoDup (networks (interface tree)).*1
  ∧ net_type_of (interface tree) "lan" = "generic-networks"
  ∧ 3 ≠ -1
  ∧ ∃ s1 s2,
      _get_net (interface tree) "lan" 3 (init srv0 heap0) = Ok "lan-GENERIC-03" s1
      ∧ _get_net (interface tree) "lan" 3 s1 = Ok "lan-GENERIC-03" s2
      ∧ st_calls s2 = st_calls s1.
Proof.
  assert (Hnd : NoDup (networks (interface tree)).*1)
    by (apply (bool_decide_unpack _); vm_compute; reflexivity).
  assert (Hty : net_type_of (interface tree) "lan" = "generic-networks")
    by (vm_compute; reflexivity).
  assert (Hi : 3 ≠ -1) by lia.
  split; [exact Hnd|]. split; [exact Hty|]. split; [exact Hi|].
  destruct (get_net_generic_twice (interface tree) "lan" 3 (init srv0 heap0) Hnd Hty Hi)
    as (s1 & s2 & Hrun1 & Hrun2 & _ & Hcalls & _).
  exists s1, s2. split; [exact Hrun1|]. split; [exact Hrun2|exact Hcalls].
Defined.

Lemma configure_nics_idempotent_witness :
  let s := init srv_vm2 heap_vm2 in
  st_heap s !! 1%positive = Some ["internet"; "lan"]
  ∧ length (vm_network vm2 (st_server s)) = length ["internet"; "lan"]
  ∧ ∃ s', _configure_nics (interface tree) vm2 1%positive (Some 3) s = Ok tt s'
          ∧ st_calls s' = st_calls s.
Proof.
  intros s.
  assert (Hheap : st_heap s !! 1%positive = Some ["internet"; "lan"])
    by (vm_compute; reflexivity).
  assert (Hlen : length (vm_network vm2 (st_server s)) = length ["internet"; "lan"])
    by reflexivity.
  split; [exact Hheap|]. split; [exact Hlen|].
  destruct (configure_nics_idempotent (interface tree) vm2 1%positive (Some 3)
              ["internet"; "lan"] s Hheap Hlen) as (s' & Hrun & Hcalls & _).
  { intros [|[|k]] name Hk; simplify_eq/=.
    - exists "internet", internet_pg. repeat split; vm_compute; reflexivity.
    - exists "lan-GENERIC-03", lan3_pg. repeat split; vm_compute; reflexivity. }
  exists s'. split; [exact Hrun|exact Hcalls].
Defined.

Lemma configure_nics_walks_existing_slots_witness :
  let s := init srv_vm1 heap_vm1 in
  st_heap s !! 1%positive = Some ["internet"; "dmz"; "office"]
  ∧ ∃ n s1,
      reconcile_nic_count vm1 1%positive
        (add_log (Log DEBUG "Editing NICs for VM '%s'" [LStr (name_of vm1)]) s) = Ok n s1
      ∧ _configure_nics (interface tree) vm1 1%positive None s
        = walk_slots (interface tree) vm1 ["internet"; "dmz"; "office"] None 1 s1.
Proof.
  intros s.
  assert (Hheap : st_heap s !! 1%positive = Some ["internet"; "dmz"; "office"])
    by (vm_compute; reflexivity).
  split; [exact Hheap|].
  exact (configure_nics_walks_existing_slots (interface tree) vm1 1%positive None
           ["internet"; "dmz"; "office"] s Hheap).
Defined.

Lemma unknown_service_is_skipped_witness :
  dict_get "ftp" (services (interface tree)) = None
  ∧ dict_get "service" ftp_instance = Some (VStr "ftp")
  ∧ ∀ s, _is_vsphere (interface tree) (VStr "ftp") s
         = Ok false (add_log (Log ERROR "Could not find service %s in list of services"
                                [LVal (VStr "ftp")]) s).
Proof.
  assert (Hname : dict_get "ftp" (services (interface tree)) = None) by reflexivity.
  assert (Hsref : dict_get "service" ftp_instance = Some (VStr "ftp")) by reflexivity.
  split; [exact Hname|]. split; [exact Hsref|].
  exact (proj1 (unknown_service_is_skipped (interface tree) "ftp" "files" ftp_instance
                  Hname Hsref)).
Defined.

(** ** Witnesses of the further properties *)

Lemma get_net_unique_is_identity_witness :
  net_type_of (interface tree) "internet" = "unique-networks"
  ∧ _get_net (interface tree) "internet" 3 (init srv0 heap0) = Ok "internet" (init srv0 heap0).
Proof.
  assert (Hty : net_type_of (interface tree) "internet" = "unique-networks")
    by (vm_compute; reflexivity).
  split; [exact Hty|].
  exact (get_net_unique_is_identity (interface tree) "internet" 3 (init srv0 heap0) Hty).
Defined.

Lemma get_net_generic_needs_instance_witness :
  net_type_of (interface tree) "lan" = "generic-networks"
  ∧ _get_net (interface tree) "lan" (-1) (init srv0 heap0)
    = Raise ValueError
        (add_log (Log ERROR "Invalid instance for _get_net: %d" [LInt (-1)])
           (init srv0 heap0)).
Proof.
  assert (Hty : net_type_of (interface tree) "lan" = "generic-networks")
    by (vm_compute; reflexivity).
  split; [exact Hty|].
  exact (get_net_generic_needs_instance (interface tree) "lan" (init srv0 heap0) Hty).
Defined.

Lemma get_net_other_category_raises_witness :
  net_type_of (interface tree) "backbone" ≠ "unique-networks"
  ∧ net_type_of (interface tree) "backbone" ≠ "generic-networks"
  ∧ ∃ s', _get_net (interface tree) "backbone" 3 (init srv0 heap0) = Raise TypeError s'
          ∧ untouched (init srv0 heap0) s'
          ∧ st_net_table s' = st_net_table (init srv0 heap0)
          ∧ st_lookups s' = st_lookups (init srv0 heap0).
Proof.
  assert (Hu : net_type_of (interface tree) "backbone" ≠ "unique-networks")
    by (apply (bool_decide_unpack _); vm_compute; reflexivity).
  assert (Hg : net_type_of (interface tree) "backbone" ≠ "generic-networks")
    by (apply (bool_decide_unpack _); vm_compute; reflexivity).
  split; [exact Hu|]. split; [exact Hg|].
  exact (get_net_other_category_raises (interface tree) "backbone" 3 (init srv0 heap0) Hu Hg).
Defined.

Lemma get_net_creates_missing_generic_witness :
  let s := init srv0 heap0 in
  net_type_of (interface tree) "lan" = "generic-networks"
  ∧ 3 ≠ -1
  ∧ st_net_table s !! "lan-GENERIC-03" = None
  ∧ get_network "lan-GENERIC-03" (st_server s) = None
  ∧ ∃ s', _get_net (interface tree) "lan" 3 s = Ok "lan-GENERIC-03" s'
          ∧ st_calls s' = [CCreatePortgroup "lan-GENERIC-03" false 2000 "vSwitch0"].
Proof.
  intros s.
  assert (Hty : net_type_of (interface tree) "lan" = "generic-networks")
    by (vm_compute; reflexivity).
  assert (Hi : 3 ≠ -1) by lia.
  assert (Htab : st_net_table s !! "lan-GENERIC-03" = None) by (vm_compute; reflexivity).
  assert (Hnet : get_network "lan-GENERIC-03" (st_server s) = None)
    by (vm_compute; reflexivity).
  split; [exact Hty|]. split; [exact Hi|]. split; [exact Htab|]. split; [exact Hnet|].
  destruct (get_net_creates_missing_generic (interface tree) "lan" 3
              [("lan", NetConfig None None)] (NetConfig None None) s
              Hty Hi eq_refl eq_refl Htab Hnet) as (s' & Hrun & Hcalls & _).
  exists s'. split; [exact Hrun|exact Hcalls].
Defined.

Lemma instances_handler_number_witness :
  dict_get "instances" [("instances", VDict numbered_directive)]
  = Some (VDict numbered_directive)
  ∧ dict_get "number" numbered_directive = Some (VInt 3)
  ∧ 3 ≤ warn (thresholds KFolder)
  ∧ dict_get "prefix" numbered_directive = Some (VStr "Pod")
  ∧ _instances_handler (VDict [("instances", VDict numbered_directive)]) "Pods" KFolder
      (init srv0 heap0)
    = Ok (3, "Pod") (init srv0 heap0).
Proof.
  assert (Hinst : dict_get "instances" [("instances", VDict numbered_directive)]
                  = Some (VDict numbered_directive)) by reflexivity.
  assert (Hnum : dict_get "number" numbered_directive = Some (VInt 3)) by reflexivity.
  assert (Hn : 3 ≤ warn (thresholds KFolder)) by (simpl; lia).
  assert (Hprefix : dict_get "prefix" numbered_directive = Some (VStr "Pod")) by reflexivity.
  split; [exact Hinst|]. split; [exact Hnum|]. split; [exact Hn|]. split; [exact Hprefix|].
  exact (instances_handler_number KFolder 3 "Pods" "Pod"
           [("instances", VDict numbered_directive)] numbered_directive (init srv0 heap0)
           Hinst Hnum Hn (or_introl Hprefix)).
Defined.

Lemma instances_handler_without_number_witness :
  dict_get "instances" [("instances", VDict sized_directive)] = Some (VDict sized_directive)
  ∧ dict_get "number" sized_directive = None
  ∧ dict_get "prefix" sized_directive = Some (VStr "Pod")
  ∧ _instances_handler (VDict [("instances", VDict sized_directive)]) "Pods" KFolder
      (init srv0 heap0)
    = Ok (1, "Pod") (init srv0 heap0).
Proof.
  assert (Hinst : dict_get "instances" [("instances", VDict sized_directive)]
                  = Some (VDict sized_directive)) by reflexivity.
  assert (Hnum : dict_get "number" sized_directive = None) by reflexivity.
  assert (Hprefix : dict_get "prefix" sized_directive = Some (VStr "Pod")) by reflexivity.
  split; [exact Hinst|]. split; [exact Hnum|]. split; [exact Hprefix|].
  exact (instances_handler_without_number KFolder "Pods" "Pod"
           [("instances", VDict sized_directive)] sized_directive (init srv0 heap0)
           Hinst Hnum (or_introl Hprefix)).
Defined.

Lemma foreign_service_is_skipped_witness :
  dict_get "mail" (services mixed_interface) = Some (ServiceDef None None)
  ∧ sd_template (ServiceDef None None) = None
  ∧ dict_get "service" mail_instance = Some (VStr "mail")
  ∧ ∀ folder_ s,
      _clone_service mixed_interface folder_ (VStr "mail") s
      = Ok None (add_log (Log DEBUG "Skipping non-vsphere service '%s'"
                            [LVal (VStr "mail")]) s).
Proof.
  assert (Hname : dict_get "mail" (services mixed_interface) = Some (ServiceDef None None))
    by reflexivity.
  assert (Htpl : sd_template (ServiceDef None None) = None) by reflexivity.
  assert (Hsref : dict_get "service" mail_instance = Some (VStr "mail")) by reflexivity.
  split; [exact Hname|]. split; [exact Htpl|]. split; [exact Hsref|].
  exact (proj2 (proj2 (foreign_service_is_skipped mixed_interface "mail" "postbox"
                         (ServiceDef None None) mail_instance Hname Htpl Hsref))).
Defined.


Lemma deploy_service_zero_instances_witness :
  let s := init srv_mastered heap0 in
  dict_get "service" (web_instances 0) = Some (VStr "web")
  ∧ dict_get "web" (services (interface tree)) = Some (ServiceDef (Some "web-tmpl") None)
  ∧ dict_get "instances" (web_instances 0) = Some (VInt 0)
  ∧ 0 ≤ 0
  ∧ ∃ s', deploy_service_gen (interface tree) env_root "" 0 ("web", VDict (web_instances 0)) s
          = Ok tt s'
          ∧ untouched s s'.
Proof.
  intros s.
  assert (Hsref : dict_get "service" (web_instances 0) = Some (VStr "web")) by reflexivity.
  assert (Hname : dict_get "web" (services (interface tree))
                  = Some (ServiceDef (Some "web-tmpl") None)) by reflexivity.
  assert (Hinst : dict_get "instances" (web_instances 0) = Some (VInt 0)) by reflexivity.
  assert (Hn : 0 ≤ 0) by lia.
  split; [exact Hsref|]. split; [exact Hname|]. split; [exact Hinst|]. split; [exact Hn|].
  destruct (deploy_service_zero_instances (interface tree) env_root "" 0 0 "web" "web"
              "web-tmpl" (ServiceDef (Some "web-tmpl") None) (web_instances 0) s
              Hsref Hname eq_refl Hinst Hn) as (s' & Hrun & Hsame & _).
  exists s'. split; [exact Hrun|exact Hsame].
Defined.

Lemma deploy_base_folder_single_instance_witness :
  dict_get "instances" plain_folder = None
  ∧ preserves (calls_added (is_service_call_in env_root))
      (_deploy_base_folder_gen (interface tree) "Team" (VDict plain_folder) env_root "").
Proof.
  assert (Hinst : dict_get "instances" plain_folder = None) by reflexivity.
  split; [exact Hinst|].
  exact (deploy_base_folder_single_instance (interface tree) "Team" plain_folder env_root ""
           Hinst).
Defined.

Lemma deploy_walk_skips_disabled_node_witness :
  dict_get "enabled" [("enabled", VBool false); ("Team", team)] = Some (VBool false)
  ∧ _deploy_parent_folder_gen (interface tree_off) tree_off env_root "" (init srv0 heap0)
    = Ok tt (add_log (Log WARNING "Skipping disabled parent-type folder %s"
                        [LStr (name_of env_root)]) (init srv0 heap0)).
Proof.
  assert (Hen : dict_get "enabled" [("enabled", VBool false); ("Team", team)]
                = Some (VBool false)) by reflexivity.
  split; [exact Hen|].
  exact (deploy_walk_skips_disabled_node (interface tree_off)
           [("enabled", VBool false); ("Team", team)] env_root "" (init srv0 heap0) Hen).
Defined.

Lemma reconcile_deletes_excess_witness :
  let s := init srv_vm2 heap_one_net in
  st_heap s !! 1%positive = Some ["internet"]
  ∧ (length ["internet"] < length (vm_network vm2 (st_server s)))%nat
  ∧ ∃ s', reconcile_nic_count vm2 1%positive s = Ok 1 s'
          ∧ st_calls s' = [CDeleteNic vm2 1].
Proof.
  intros s.
  assert (Hheap : st_heap s !! 1%positive = Some ["internet"]) by (vm_compute; reflexivity).
  assert (Hlt : (length ["internet"] < length (vm_network vm2 (st_server s)))%nat)
    by (vm_compute; lia).
  split; [exact Hheap|]. split; [exact Hlt|].
  destruct (reconcile_deletes_excess (H:=hypervisor) vm2 1%positive ["internet"] s Hheap Hlt)
    as (s' & Hrun & Hcalls & _).
  exists s'. split; [exact Hrun|exact Hcalls].
Defined.

Lemma reconcile_adds_missing_witness :
  let s := init srv_vm1 heap_vm1 in
  st_heap s !! 1%positive = Some ["internet"; "dmz"; "office"]
  ∧ (length (vm_network vm1 (st_server s)) < length ["internet"; "dmz"; "office"])%nat
  ∧ ∃ s', reconcile_nic_count vm1 1%positive s = Ok 1 s'
          ∧ st_heap s' !! 1%positive = Some ["internet"].
Proof.
  intros s.
  assert (Hheap : st_heap s !! 1%positive = Some ["internet"; "dmz"; "office"])
    by (vm_compute; reflexivity).
  assert (Hlt : (length (vm_network vm1 (st_server s))
                 < length ["internet"; "dmz"; "office"])%nat) by (vm_compute; lia).
  split; [exact Hheap|]. split; [exact Hlt|].
  destruct (reconcile_adds_missing (H:=hypervisor) vm1 1%positive
              ["internet"; "dmz"; "office"] s Hheap Hlt)
    as (s' & new & Hrun & _ & _ & Hlist & _).
  exists s'. split; [exact Hrun|exact Hlist].
Defined.

Lemma base_folder_without_group_raises_witness :
  dict_get "group" groupless_folder = None
  ∧ _deploy_base_folder_gen (interface tree) "Team" (VDict groupless_folder) env_root ""
      (init srv0 heap0)
    = Raise KeyError (init srv0 heap0).
Proof.
  assert (Hgroup : dict_get "group" groupless_folder = None) by reflexivity.
  split; [exact Hgroup|].
  exact (proj1 (base_folder_without_group_raises (interface tree) "Team" groupless_folder
                  env_root "" (init srv0 heap0) Hgroup)).
Defined.

Lemma deploy_service_clones_witness :
  let s := init srv_mastered heap0 in
  let master := ["Env"; "MASTER-FOLDERS"; "(MASTER) web"] in
  let run := deploy_service_gen (interface tree) env_root "" 0
               ("web", VDict (web_instances 2)) s in
  dict_get "service" (web_instances 2) = Some (VStr "web")
  ∧ dict_get "web" (services (interface tree)) = Some (ServiceDef (Some "web-tmpl") None)
  ∧ dict_get "instances" (web_instances 2) = Some (VInt 2)
  ∧ 1 < 2 ≤ 50
  ∧ traverse_path (master_folder (interface tree)) (_path "" "web") (st_server s)
    = Some master
  ∧ ∃ new, st_calls (final_state run) = st_calls s ++ new
           ∧ filter is_clone_vm new
               `prefix_of` (λ i, CCloneVm master env_root ("web" +:+ " " +:+ pad i))
                             <$> seqZ 0 2.
Proof.
  intros s master run.
  assert (Hsref : dict_get "service" (web_instances 2) = Some (VStr "web")) by reflexivity.
  assert (Hname : dict_get "web" (services (interface tree))
                  = Some (ServiceDef (Some "web-tmpl") None)) by reflexivity.
  assert (Hinst : dict_get "instances" (web_instances 2) = Some (VInt 2)) by reflexivity.
  assert (Hn : 1 < 2 ≤ 50) by lia.
  assert (Hmaster : traverse_path (master_folder (interface tree)) (_path "" "web")
                      (st_server s) = Some master) by (vm_compute; reflexivity).
  split; [exact Hsref|]. split; [exact Hname|]. split; [exact Hinst|]. split; [exact Hn|].
  split; [exact Hmaster|].
  destruct (deploy_service_clones (interface tree) env_root "" 0 2 "web" "web" "web-tmpl"
              (ServiceDef (Some "web-tmpl") None) (web_instances 2) master s
              Hsref Hname eq_refl Hinst Hn Hmaster) as (new & Hcalls & Hprefix & _).
  exists new. split; [exact Hcalls|exact Hprefix].
Defined.

Lemma deploy_base_folder_instances_witness :
  let s := init srv0 heap0 in
  let run := _deploy_base_folder_gen (interface tree) "Team" (VDict double_folder)
               env_root "" s in
  dict_get "instances" double_folder = Some (VInt 2)
  ∧ 1 < 2 ≤ 25
  ∧ ∃ new, st_calls (final_state run) = st_calls s ++ new
           ∧ filter is_create_folder new
               `prefix_of` (λ i, CCreateFolder ("Team" +:+ pad i) env_root) <$> seqZ 0 2.
Proof.
  intros s run.
  assert (Hinst : dict_get "instances" double_folder = Some (VInt 2)) by reflexivity.
  assert (Hn : 1 < 2 ≤ 25) by lia.
  split; [exact Hinst|]. split; [exact Hn|].
  destruct (deploy_base_folder_instances (interface tree) "Team" double_folder env_root ""
              2 s Hinst Hn) as (new & Hcalls & Hprefix & _).
  exists new. split; [exact Hcalls|exact Hprefix].
Defined.
